(** * MINI-RAG: the upload / query page script and the retrieval core

    A shallow embedding of [frontend/script.js] (both revisions of the
    file) and of the retrieval core described in the design document,
    with the properties stated about them.

    Conventions of the embedding.
    - JavaScript strings are byte strings holding well-formed UTF-8.
    - The values a response body can parse to are the JSON values, plus
      [undefined] for the result of reading an absent property.
    - Double-precision arithmetic and the wording of the exceptions the
      engine raises by itself are operations of a [Runtime]; nothing is
      assumed about them.
    - An asynchronous handler is split at its [await]: the part that runs
      up to the [fetch] call, and the part that runs once the outcome of
      the request is known.  A run is the two parts in sequence, with no
      other handler in between.
    - Every element the script looks up by id exists. *)

From Stdlib Require Import String Ascii List NArith ZArith Lia Bool DecimalString.
From stdpp Require Import base strings list gmap.

Set Default Proof Using "Type".
Set Warnings "-register-all".

(** ** Strings *)

Definition dq : ascii := "034"%char.

(** Markup literals are written with an apostrophe where the script has a
    quotation mark; [html] puts the quotation marks back.  No markup of
    the script contains an apostrophe of its own. *)
Fixpoint html (s : string) : string :=
  match s with
  | EmptyString => EmptyString
  | String c r => String (if Ascii.eqb c "'"%char then dq else c) (html r)
  end.

Definition decimal (n : N) : string := NilZero.string_of_uint (N.to_uint n).

Fixpoint is_prefix (p s : string) : bool :=
  match p, s with
  | EmptyString, _ => true
  | String a p', String b s' => Ascii.eqb a b && is_prefix p' s'
  | String _ _, EmptyString => false
  end.

Fixpoint contains (needle hay : string) : bool :=
  is_prefix needle hay ||
  match hay with
  | EmptyString => false
  | String _ hay' => contains needle hay'
  end.

(** [needle] occurs somewhere in [hay]. *)
Definition Shows (needle hay : string) : Prop :=
  exists pre post, hay = pre +:+ needle +:+ post.

(** *** String.prototype.trim

    White space and line terminators of ECMAScript, by their UTF-8
    encodings: one byte (TAB, LF, VT, FF, CR, SP), two bytes (U+00A0),
    three bytes (U+1680, U+2000..U+200A, U+2028, U+2029, U+202F, U+205F,
    U+3000, U+FEFF). *)

Definition ws1 (a : ascii) : bool :=
  let x := N_of_ascii a in
  ((9 <=? x) && (x <=? 13) || (x =? 32))%N.

Definition ws2 (a b : ascii) : bool :=
  ((N_of_ascii a =? 194) && (N_of_ascii b =? 160))%N.

Definition ws3 (a b c : ascii) : bool :=
  let x := N_of_ascii a in
  let y := N_of_ascii b in
  let z := N_of_ascii c in
  ((x =? 225) && (y =? 154) && (z =? 128)
   || (x =? 226) && (y =? 128)
      && ((128 <=? z) && (z <=? 138) || (z =? 168) || (z =? 169) || (z =? 175))
   || (x =? 226) && (y =? 129) && (z =? 159)
   || (x =? 227) && (y =? 128) && (z =? 128)
   || (x =? 239) && (y =? 187) && (z =? 191))%N.

Fixpoint trimStart (s : string) : string :=
  match s with
  | EmptyString => EmptyString
  | String a r1 =>
    if ws1 a then trimStart r1 else
    match r1 with
    | EmptyString => s
    | String b r2 =>
      if ws2 a b then trimStart r2 else
      match r2 with
      | EmptyString => s
      | String c r3 => if ws3 a b c then trimStart r3 else s
      end
    end
  end.

(** The same scan over the reversed string: the bytes of a code point
    arrive last byte first. *)
Fixpoint trimStart_rev (s : string) : string :=
  match s with
  | EmptyString => EmptyString
  | String a r1 =>
    if ws1 a then trimStart_rev r1 else
    match r1 with
    | EmptyString => s
    | String b r2 =>
      if ws2 b a then trimStart_rev r2 else
      match r2 with
      | EmptyString => s
      | String c r3 => if ws3 c b a then trimStart_rev r3 else s
      end
    end
  end.

Definition trimEnd (s : string) : string :=
  String.rev (trimStart_rev (String.rev s)).

Definition trim (s : string) : string := trimEnd (trimStart s).

(** *** Quoting a string for JSON (QuoteJSONString) *)

Definition hex_digit (n : N) : ascii :=
  ascii_of_N (if (n <? 10)%N then 48 + n else 87 + n).

Definition json_escape_byte (c : ascii) : string :=
  let n := N_of_ascii c in
  if (n =? 8)%N then "\b"
  else if (n =? 9)%N then "\t"
  else if (n =? 10)%N then "\n"
  else if (n =? 12)%N then "\f"
  else if (n =? 13)%N then "\r"
  else if (n =? 34)%N then String "\"%char (String dq EmptyString)
  else if (n =? 92)%N then "\\"
  else if (n <? 32)%N then
    "\u00" +:+ String (hex_digit (n / 16)) (String (hex_digit (n mod 16)) EmptyString)
  else String c EmptyString.

Fixpoint json_escape (s : string) : string :=
  match s with
  | EmptyString => EmptyString
  | String c r => json_escape_byte c +:+ json_escape r
  end.

Definition json_quote (s : string) : string :=
  String dq (json_escape s) +:+ String dq EmptyString.

(** *** Number.prototype.toFixed(2) of a byte count in mebibytes

    [(size / 1024 / 1024).toFixed(2)] for an integer [size] below 2^53:
    both divisions are exact in double precision, and [toFixed] picks the
    integer [n] for which [n / 100] is nearest to the exact quotient, the
    larger one on a tie.  The script evaluates this for sizes up to
    20 MiB only. *)
Definition hundredths_of_MiB (size : N) : N :=
  ((200 * size + 1048576) / 2097152)%N.

Definition fixed2 (n : N) : string :=
  decimal (n / 100) +:+ "." +:+ decimal (n mod 100 / 10) +:+ decimal (n mod 10).

Definition size_in_MiB_fixed2 (size : N) : string :=
  fixed2 (hundredths_of_MiB size).

(** ** The script's state *)

(** The two revisions of [script.js]. *)
Inductive version := V1 | V2.

(** A [File] of the File API: [size] is an unsigned integer. *)
Record File := { file_name : string; file_type : string; file_size : N }.

(** A [fetch] call, as issued. *)
Inductive FormEntry := FormFile (f : File) | FormString (s : string).

Inductive Body :=
| BodyText (s : string)
| BodyForm (entries : list (string * FormEntry)).

Record Request := {
  req_url : string;
  req_method : string;
  req_headers : list (string * string);
  req_body : option Body
}.

(** A thrown [Error]; only its [message] is ever read. *)
Record JsError := { message : string }.

Inductive console_level := Log | Warn | Err.

Record ConsoleEntry := {
  con_level : console_level;
  con_text : string;
  con_error : option JsError
}.

(** A child of [toastContainer]. *)
Record Toast := {
  toast_className : string;
  toast_innerHTML : string;
  toast_animation : string;
  toast_attached : bool
}.

Inductive TimerAction :=
| FadeToast (i : nat)
| RemoveToast (i : nat)
| ResetUploadZone.

Record Timer := { delay : N; action : TimerAction }.

(** A [.chip] element: its [data-role] and [data-target] attributes, the
    element it sits in ([parentElement]), the elements around that one
    from the inside out, and whether its class list has [active]. *)
Record Chip := {
  chip_role : option string;
  chip_target : option string;
  chip_parent : nat;
  chip_ancestors : list nat;
  chip_active : bool
}.

(** Module-level variables; [None] is [undefined] for a role and [null]
    for the file. *)
Record Globals := {
  uploadRole : option string;
  searchRole : option string;
  selectedFile : option File
}.

Record UploadView := {
  uploadZone_dragover : bool;
  uploadText : string;
  uploadSubtext : string;
  fileInput_value : string;
  uploadBtn_disabled : bool;
  uploadBtn_loading : bool;
  uploadResult_display : string;
  uploadResult_innerHTML : string;
  docTypeSelect_value : string
}.

Record SearchView := {
  queryInput_value : string;
  loadingState_display : string;
  answerContainer_display : string;
  answerText_textContent : string;
  sourcesList_innerHTML : string
}.

(** What the script did to the outside: toasts created, timers armed,
    requests issued, console lines written, oldest first. *)
Record Effects := {
  toasts : list Toast;
  timers : list Timer;
  requests : list Request;
  console : list ConsoleEntry
}.

Record State := {
  globals : Globals;
  upload : UploadView;
  search : SearchView;
  chips : list Chip;
  fx : Effects
}.

Definition init_globals : Globals :=
  {| uploadRole := Some "Employee"; searchRole := Some "Employee";
     selectedFile := None |}.

(** *** Field updates *)

Definition with_globals (f : Globals -> Globals) (s : State) : State :=
  {| globals := f (globals s); upload := upload s; search := search s;
     chips := chips s; fx := fx s |}.
Definition with_upload (f : UploadView -> UploadView) (s : State) : State :=
  {| globals := globals s; upload := f (upload s); search := search s;
     chips := chips s; fx := fx s |}.
Definition with_search (f : SearchView -> SearchView) (s : State) : State :=
  {| globals := globals s; upload := upload s; search := f (search s);
     chips := chips s; fx := fx s |}.
Definition with_chips (f : list Chip -> list Chip) (s : State) : State :=
  {| globals := globals s; upload := upload s; search := search s;
     chips := f (chips s); fx := fx s |}.
Definition with_fx (f : Effects -> Effects) (s : State) : State :=
  {| globals := globals s; upload := upload s; search := search s;
     chips := chips s; fx := f (fx s) |}.

Definition set_uploadRole (r : option string) (g : Globals) : Globals :=
  {| uploadRole := r; searchRole := searchRole g; selectedFile := selectedFile g |}.
Definition set_searchRole (r : option string) (g : Globals) : Globals :=
  {| uploadRole := uploadRole g; searchRole := r; selectedFile := selectedFile g |}.
Definition set_selectedFile (f : option File) (g : Globals) : Globals :=
  {| uploadRole := uploadRole g; searchRole := searchRole g; selectedFile := f |}.

Definition set_dragover (b : bool) (u : UploadView) : UploadView :=
  {| uploadZone_dragover := b; uploadText := uploadText u;
     uploadSubtext := uploadSubtext u; fileInput_value := fileInput_value u;
     uploadBtn_disabled := uploadBtn_disabled u;
     uploadBtn_loading := uploadBtn_loading u;
     uploadResult_display := uploadResult_display u;
     uploadResult_innerHTML := uploadResult_innerHTML u;
     docTypeSelect_value := docTypeSelect_value u |}.
Definition set_upload_texts (t sub : string) (u : UploadView) : UploadView :=
  {| uploadZone_dragover := uploadZone_dragover u; uploadText := t;
     uploadSubtext := sub; fileInput_value := fileInput_value u;
     uploadBtn_disabled := uploadBtn_disabled u;
     uploadBtn_loading := uploadBtn_loading u;
     uploadResult_display := uploadResult_display u;
     uploadResult_innerHTML := uploadResult_innerHTML u;
     docTypeSelect_value := docTypeSelect_value u |}.
Definition set_fileInput_value (v : string) (u : UploadView) : UploadView :=
  {| uploadZone_dragover := uploadZone_dragover u; uploadText := uploadText u;
     uploadSubtext := uploadSubtext u; fileInput_value := v;
     uploadBtn_disabled := uploadBtn_disabled u;
     uploadBtn_loading := uploadBtn_loading u;
     uploadResult_display := uploadResult_display u;
     uploadResult_innerHTML := uploadResult_innerHTML u;
     docTypeSelect_value := docTypeSelect_value u |}.
(** [uploadBtn.disabled] and the [loading] entry of its class list are
    always written together. *)
Definition set_uploadBtn_busy (b : bool) (u : UploadView) : UploadView :=
  {| uploadZone_dragover := uploadZone_dragover u; uploadText := uploadText u;
     uploadSubtext := uploadSubtext u; fileInput_value := fileInput_value u;
     uploadBtn_disabled := b; uploadBtn_loading := b;
     uploadResult_display := uploadResult_display u;
     uploadResult_innerHTML := uploadResult_innerHTML u;
     docTypeSelect_value := docTypeSelect_value u |}.
Definition set_uploadResult_display (d : string) (u : UploadView) : UploadView :=
  {| uploadZone_dragover := uploadZone_dragover u; uploadText := uploadText u;
     uploadSubtext := uploadSubtext u; fileInput_value := fileInput_value u;
     uploadBtn_disabled := uploadBtn_disabled u;
     uploadBtn_loading := uploadBtn_loading u;
     uploadResult_display := d;
     uploadResult_innerHTML := uploadResult_innerHTML u;
     docTypeSelect_value := docTypeSelect_value u |}.
Definition set_uploadResult_innerHTML (h : string) (u : UploadView) : UploadView :=
  {| uploadZone_dragover := uploadZone_dragover u; uploadText := uploadText u;
     uploadSubtext := uploadSubtext u; fileInput_value := fileInput_value u;
     uploadBtn_disabled := uploadBtn_disabled u;
     uploadBtn_loading := uploadBtn_loading u;
     uploadResult_display := uploadResult_display u;
     uploadResult_innerHTML := h;
     docTypeSelect_value := docTypeSelect_value u |}.

Definition set_loadingState_display (d : string) (v : SearchView) : SearchView :=
  {| queryInput_value := queryInput_value v; loadingState_display := d;
     answerContainer_display := answerContainer_display v;
     answerText_textContent := answerText_textContent v;
     sourcesList_innerHTML := sourcesList_innerHTML v |}.
Definition set_answerContainer_display (d : string) (v : SearchView) : SearchView :=
  {| queryInput_value := queryInput_value v;
     loadingState_display := loadingState_display v;
     answerContainer_display := d;
     answerText_textContent := answerText_textContent v;
     sourcesList_innerHTML := sourcesList_innerHTML v |}.
Definition set_answerText (t : string) (v : SearchView) : SearchView :=
  {| queryInput_value := queryInput_value v;
     loadingState_display := loadingState_display v;
     answerContainer_display := answerContainer_display v;
     answerText_textContent := t;
     sourcesList_innerHTML := sourcesList_innerHTML v |}.
Definition set_sourcesList_innerHTML (h : string) (v : SearchView) : SearchView :=
  {| queryInput_value := queryInput_value v;
     loadingState_display := loadingState_display v;
     answerContainer_display := answerContainer_display v;
     answerText_textContent := answerText_textContent v;
     sourcesList_innerHTML := h |}.

Definition add_toast (t : Toast) (e : Effects) : Effects :=
  {| toasts := toasts e ++ [t]; timers := timers e; requests := requests e;
     console := console e |}.
Definition set_toasts (ts : list Toast) (e : Effects) : Effects :=
  {| toasts := ts; timers := timers e; requests := requests e;
     console := console e |}.
Definition add_timer (t : Timer) (e : Effects) : Effects :=
  {| toasts := toasts e; timers := timers e ++ [t]; requests := requests e;
     console := console e |}.
Definition set_timers (ts : list Timer) (e : Effects) : Effects :=
  {| toasts := toasts e; timers := ts; requests := requests e;
     console := console e |}.
Definition add_request (r : Request) (e : Effects) : Effects :=
  {| toasts := toasts e; timers := timers e; requests := requests e ++ [r];
     console := console e |}.
Definition add_console (c : ConsoleEntry) (e : Effects) : Effects :=
  {| toasts := toasts e; timers := timers e; requests := requests e;
     console := console e ++ [c] |}.

(** [element.style.display] values the script writes. *)
Definition visible (display : string) : Prop := display = "block".
Definition hidden (display : string) : Prop := display = "none".

(** ** Markup the script writes *)

Definition icon_success : string :=
  html "<svg class='toast-icon' viewBox='0 0 24 24' fill='none' stroke='currentColor' stroke-width='2'><polyline points='20 6 9 17 4 12'/></svg>".

Definition icon_error : string :=
  html "<svg class='toast-icon' viewBox='0 0 24 24' fill='none' stroke='currentColor' stroke-width='2'><circle cx='12' cy='12' r='10'/><line x1='12' y1='8' x2='12' y2='12'/><line x1='12' y1='16' x2='12.01' y2='16'/></svg>".

(** The template literal of [showToast]. *)
Definition toast_markup (v : version) (icon message : string) : string :=
  match v with
  | V1 => "
        " +:+ icon +:+ html "
        <div class='toast-message'>" +:+ message +:+ "</div>
    "
  | V2 => icon +:+ html "<div class='toast-message'>" +:+ message +:+ "</div>"
  end.

(** The template literal of the [displayUploadResult] that shows three
    fields: the first of the two declarations in revision 1, the only
    one in revision 2.  The two differ in the access label. *)
Definition access_label (v : version) : string :=
  match v with V1 => "Access level: " | V2 => "Access: " end.

Definition upload_result_three (v : version) (filename chunks_created doc_type : string) : string :=
  html "
        <div style='margin-top: 1rem; padding: 1rem; background: rgba(16, 185, 129, 0.1); border: 1px solid rgba(16, 185, 129, 0.3); border-radius: 12px;'>
            <div style='display: flex; align-items: center; gap: 0.5rem; margin-bottom: 0.5rem;'>
                <svg style='width: 20px; height: 20px; stroke: #10b981;' viewBox='0 0 24 24' fill='none' stroke-width='2'>
                    <polyline points='20 6 9 17 4 12'/>
                </svg>
                <span style='font-weight: 600; color: #10b981;'>Upload Successful</span>
            </div>
            <div style='font-size: 0.875rem; color: var(--text-secondary);'>
                <div>📄 <strong>" +:+ filename +:+ "</strong></div>
                <div>📊 " +:+ chunks_created +:+ " chunks created</div>
                <div>🔒 " +:+ access_label v +:+ doc_type +:+ "</div>
            </div>
        </div>
    ".

(** The template literal of the second [displayUploadResult] of
    revision 1, which shows four fields. *)
Definition upload_result_four (filename chunks_created text_length doc_type : string) : string :=
  html "
        <div class='result-success'>
            <svg class='result-icon' viewBox='0 0 24 24' fill='none' stroke='currentColor' stroke-width='2'>
                <polyline points='20 6 9 17 4 12'/>
            </svg>
            <div class='result-content'>
                <div class='result-title'>Upload Successful!</div>
                <div class='result-details'>
                    <div>📄 " +:+ filename +:+ "</div>
                    <div>📊 " +:+ chunks_created +:+ " chunks created</div>
                    <div>📝 " +:+ text_length +:+ " characters processed</div>
                    <div>🔒 " +:+ doc_type +:+ " access level</div>
                </div>
            </div>
        </div>
    ".

(** The template literal of one source in [displayAnswer]; [page] is
    the inner template literal, or the empty string. *)
Definition source_page_markup (page : string) : string :=
  html "<span class='source-page'> · Page " +:+ page +:+ "</span>".

Definition source_item_markup (filename page percent : string) : string :=
  html "
            <div class='source-item'>
                <div>
                    <span class='source-name'>📄 " +:+ filename +:+ "</span>
                    " +:+ page +:+ html "
                </div>
                <span class='source-similarity'>" +:+ percent +:+ "%</span>
            </div>
        ".

(** ** Results and the handler monad *)

Inductive result (A : Type) :=
| Ok (a : A)
| Throw (e : JsError).
Arguments Ok {A} a.
Arguments Throw {A} e.

(** A piece of handler code: it changes the state and either completes
    or throws.  What it did to the state before throwing stays done. *)
Definition M (A : Type) : Type := State -> State * result A.

Definition ret {A} (a : A) : M A := fun s => (s, Ok a).
Definition throw {A} (e : JsError) : M A := fun s => (s, Throw e).
Definition lift {A} (r : result A) : M A := fun s => (s, r).
Definition modify (f : State -> State) : M unit := fun s => (f s, Ok tt).

Definition bind {A B} (m : M A) (k : A -> M B) : M B :=
  fun s =>
    match m s with
    | (s1, Ok a) => k a s1
    | (s1, Throw e) => (s1, Throw e)
    end.

Definition try_catch (body : M unit) (handler : JsError -> M unit) : M unit :=
  fun s =>
    match body s with
    | (s1, Ok a) => (s1, Ok a)
    | (s1, Throw e) => handler e s1
    end.

Definition try_finally {A} (body : M A) (finalizer : State -> State) : M A :=
  fun s => let (s1, r) := body s in (finalizer s1, r).

Definition exec (m : M unit) (s : State) : State := fst (m s).

Notation "'let*' x ':=' m 'in' k" := (bind m (fun x => k))
  (at level 10, x name, m at level 100, k at level 200, only parsing).
Notation "m1 '>>' m2" := (bind m1 (fun _ => m2))
  (at level 100, m2 at level 200, right associativity, only parsing).

(** [x || y] on messages: the empty string is falsy. *)
Definition or_string (m fallback : string) : string :=
  if String.eqb m "" then fallback else m.

(** ** The JavaScript runtime *)

(** Numbers are IEEE doubles and their operations are the engine's; so is
    the text of the [TypeError]s it raises.  The script is embedded over
    any such runtime. *)
Class Runtime := {
  num : Type;
  (** ToBoolean: false for zeros and NaN *)
  num_truthy : num -> bool;
  (** Number::toString *)
  num_to_string : num -> string;
  (** StringToNumber *)
  string_to_num : string -> num;
  num_NaN : num;
  num_of_N : N -> num;
  (** [x > 0] *)
  num_gt_zero : num -> bool;
  (** [(x * 100).toFixed(0)] *)
  num_percent : num -> string;
  (** JSON.stringify of a number: [null] unless finite *)
  num_to_json : num -> string;
  (** message of the TypeError for reading property [p] of [null], and
      of [undefined] *)
  msg_read_of_null : string -> string;
  msg_read_of_undefined : string -> string;
  (** message of the TypeError for calling [f] when it is not a function *)
  msg_not_a_function : string -> string;
  (** message of the TypeError for an object that has no primitive value *)
  msg_cannot_convert : string
}.

Section Script.
Context `{RT : Runtime}.

(** *** Values *)

Inductive value :=
| VUndefined
| VNull
| VBool (b : bool)
| VNum (n : num)
| VStr (s : string)
| VArr (items : list value)
| VObj (fields : list (string * value)).

(** ToBoolean. *)
Definition truthy (v : value) : bool :=
  match v with
  | VUndefined | VNull => false
  | VBool b => b
  | VNum n => num_truthy n
  | VStr s => negb (String.eqb s "")
  | VArr _ | VObj _ => true
  end.

Fixpoint lookup_field (p : string) (fields : list (string * value)) : value :=
  match fields with
  | [] => VUndefined
  | (k, x) :: rest => if String.eqb k p then x else lookup_field p rest
  end.

Fixpoint has_key (p : string) (fields : list (string * value)) : bool :=
  match fields with
  | [] => false
  | (k, _) :: rest => String.eqb k p || has_key p rest
  end.

(** Whether a value has a primitive value (OrdinaryToPrimitive).  What
    [JSON.parse] builds holds no function, so an object with a property
    of its own named [toString] has none: that property hides
    [Object.prototype.toString], and the inherited [valueOf] gives the
    object back.  An array is converted by joining its elements, each of
    which is converted in turn. *)
Fixpoint convertible (v : value) : bool :=
  match v with
  | VObj fields => negb (has_key "toString" fields)
  | VArr items =>
    (fix all (l : list value) : bool :=
       match l with
       | [] => true
       | x :: rest => convertible x && all rest
       end) items
  | VUndefined | VNull | VBool _ | VNum _ | VStr _ => true
  end.

(** The string a convertible value converts to.  An array is the join of
    its elements with a comma, where [null] and [undefined] give the
    empty string; a plain object is [[object Object]]. *)
Fixpoint string_of (v : value) : string :=
  match v with
  | VUndefined => "undefined"
  | VNull => "null"
  | VBool b => if b then "true" else "false"
  | VNum n => num_to_string n
  | VStr s => s
  | VArr items =>
    (fix join (l : list value) : string :=
       match l with
       | [] => ""
       | x :: rest =>
         match x with VUndefined | VNull => "" | _ => string_of x end
         +:+ match rest with [] => "" | _ :: _ => "," +:+ join rest end
       end) items
  | VObj _ => "[object Object]"
  end.

(** ToString: a TypeError for a value that has no primitive value. *)
Definition to_string (v : value) : result string :=
  if convertible v then Ok (string_of v)
  else Throw {| message := msg_cannot_convert |}.

(** The number a convertible value converts to; arrays and objects go
    through their string. *)
Definition number_of (v : value) : num :=
  match v with
  | VUndefined => num_NaN
  | VNull => num_of_N 0
  | VBool b => num_of_N (if b then 1 else 0)
  | VNum n => n
  | VStr s => string_to_num s
  | VArr _ | VObj _ => string_to_num (string_of v)
  end.

(** ToNumber: a TypeError for a value that has no primitive value. *)
Definition to_number (v : value) : result num :=
  if convertible v then Ok (number_of v)
  else Throw {| message := msg_cannot_convert |}.

(** [v.p], for the property names the script reads off response data
    (none is inherited from a prototype). Keys of an object are distinct,
    as [JSON.parse] leaves them. *)
Definition get (v : value) (p : string) : result value :=
  match v with
  | VUndefined => Throw {| message := msg_read_of_undefined p |}
  | VNull => Throw {| message := msg_read_of_null p |}
  | VObj fields => Ok (lookup_field p fields)
  | VBool _ | VNum _ | VStr _ | VArr _ => Ok VUndefined
  end.

Definition nullish (v : value) : bool :=
  match v with VUndefined | VNull => true | _ => false end.

(** The value of [v.p] where reading it does not throw. *)
Definition field (v : value) (p : string) : value :=
  match get v p with Ok x => x | Throw _ => VUndefined end.

(** [v.length > 0].  A truthy string is not empty; the [length] of an
    object is whatever its property of that name converts to. *)
Definition length_gt_zero (v : value) : result bool :=
  match v with
  | VUndefined => Throw {| message := msg_read_of_undefined "length" |}
  | VNull => Throw {| message := msg_read_of_null "length" |}
  | VArr items => Ok (negb (bool_decide (items = [])))
  | VStr s => Ok (negb (String.eqb s ""))
  | VObj fields =>
    match to_number (lookup_field "length" fields) with
    | Ok n => Ok (num_gt_zero n)
    | Throw e => Throw e
    end
  | VBool _ | VNum _ => Ok false
  end.

(** Assignment to [textContent], a nullable DOMString: [null] and
    [undefined] clear the text, any other value is converted. *)
Definition dom_text (v : value) : result string :=
  match v with
  | VUndefined | VNull => Ok ""
  | _ => to_string v
  end.

(** JSON.stringify.  [None] is [undefined]; a property whose value is
    [undefined] is left out, an [undefined] array element is [null].
    Properties are written in the order of the list. *)
Fixpoint JSON_stringify (v : value) : option string :=
  match v with
  | VUndefined => None
  | VNull => Some "null"
  | VBool b => Some (if b then "true" else "false")
  | VNum n => Some (num_to_json n)
  | VStr s => Some (json_quote s)
  | VArr items =>
    Some ("[" +:+
      (fix elems (l : list value) : string :=
         match l with
         | [] => ""
         | x :: rest =>
           default "null" (JSON_stringify x)
           +:+ match rest with [] => "" | _ :: _ => "," +:+ elems rest end
         end) items +:+ "]")
  | VObj fields =>
    Some ("{" +:+
      (fix props (first : bool) (l : list (string * value)) : string :=
         match l with
         | [] => ""
         | (k, x) :: rest =>
           match JSON_stringify x with
           | None => props first rest
           | Some t =>
             (if first then "" else ",") +:+ json_quote k +:+ ":" +:+ t
             +:+ props false rest
           end
         end) true fields +:+ "}")
  end.

(** A role variable as a value. *)
Definition role_value (r : option string) : value :=
  match r with Some s => VStr s | None => VUndefined end.

(** *** What a request can come to *)

Inductive body_outcome :=
| BodyJson (data : value)
| BodyInvalid (msg : string).

Record HttpResponse := { status : N; body : body_outcome }.

(** [NetworkFailure]: the promise of [fetch] rejects.  [Responded]: it
    resolves; [response.json()] then resolves with [data] or rejects with
    the parser's message. *)
Inductive fetch_outcome :=
| NetworkFailure (msg : string)
| Responded (response : HttpResponse).

(** [response.ok]. *)
Definition ok (response : HttpResponse) : bool :=
  ((200 <=? status response) && (status response <=? 299))%N.

Definition await_fetch (o : fetch_outcome) : M HttpResponse :=
  match o with
  | NetworkFailure msg => throw {| message := msg |}
  | Responded response => ret response
  end.

Definition await_json (response : HttpResponse) : M value :=
  match body response with
  | BodyJson data => ret data
  | BodyInvalid msg => throw {| message := msg |}
  end.

(** ** The script *)

Definition API_BASE (v : version) : string :=
  match v with
  | V1 => "https://your-backend.up.railway.app"
  | V2 => "https://mini-rag-mm0h.onrender.com"
  end.

(** *** Console and timers *)

Definition console_write (l : console_level) (text : string)
    (e : option JsError) : State -> State :=
  with_fx (add_console {| con_level := l; con_text := text; con_error := e |}).

Definition setTimeout (ms : N) (a : TimerAction) : State -> State :=
  with_fx (add_timer {| delay := ms; action := a |}).

(** *** Toast notifications *)

Definition new_toast (v : version) (message type : string) : Toast :=
  let icon := if String.eqb type "success" then icon_success else icon_error in
  {| toast_className := "toast " +:+ type;
     toast_innerHTML := toast_markup v icon message;
     toast_animation := "";
     toast_attached := true |}.

Definition showToast (v : version) (message type : string) (s : State) : State :=
  let i := length (toasts (fx s)) in
  setTimeout 3000 (FadeToast i) (with_fx (add_toast (new_toast v message type)) s).

Definition set_toast_animation (a : string) (t : Toast) : Toast :=
  {| toast_className := toast_className t; toast_innerHTML := toast_innerHTML t;
     toast_animation := a; toast_attached := toast_attached t |}.
Definition detach_toast (t : Toast) : Toast :=
  {| toast_className := toast_className t; toast_innerHTML := toast_innerHTML t;
     toast_animation := toast_animation t; toast_attached := false |}.

(** What an armed timer does when it fires. *)
Definition run_timer (a : TimerAction) (s : State) : State :=
  match a with
  | FadeToast i =>
    setTimeout 300 (RemoveToast i)
      (with_fx (fun e =>
         set_toasts (alter (set_toast_animation "toastSlide 0.3s ease reverse") i (toasts e)) e) s)
  | RemoveToast i =>
    with_fx (fun e => set_toasts (alter detach_toast i (toasts e)) e) s
  | ResetUploadZone =>
    with_upload (fun u =>
        set_fileInput_value ""
          (set_upload_texts "Drag & drop PDF here" "or click to browse" u))
      (with_globals (set_selectedFile None) s)
  end.

(** A pending timer fires once: it leaves the queue and its callback
    runs. *)
Definition fire_timer (k : nat) (s : State) : State :=
  match timers (fx s) !! k with
  | None => s
  | Some t =>
    run_timer (action t) (with_fx (fun e => set_timers (delete k (timers e)) e) s)
  end.

(** *** Upload zone *)

Definition msg_size_limit (v : version) : string :=
  match v with
  | V1 => "File size exceeds 20MB limit"
  | V2 => "File exceeds 20MB limit"
  end.

(** [file] is [files[0]] of a file list: [None] when the list is empty. *)
Definition handleFileSelect (v : version) (file : option File) (s : State) : State :=
  match file with
  | None => s
  | Some f =>
    if negb (String.eqb (file_type f) "application/pdf") then
      showToast v "Please select a PDF file" "error" s
    else if (20 * 1024 * 1024 <? file_size f)%N then
      showToast v (msg_size_limit v) "error" s
    else
      showToast v ("Selected: " +:+ file_name f) "success"
        (with_upload
           (set_upload_texts (file_name f)
              (size_in_MiB_fixed2 (file_size f) +:+ " MB"))
           (with_globals (set_selectedFile (Some f)) s))
  end.

Definition on_dragover : State -> State := with_upload (set_dragover true).
Definition on_dragleave : State -> State := with_upload (set_dragover false).
Definition on_drop (v : version) (file : option File) (s : State) : State :=
  handleFileSelect v file (with_upload (set_dragover false) s).
Definition on_file_change := handleFileSelect.

(** *** Upload *)

Definition msg_no_file (v : version) : string :=
  match v with
  | V1 => "Please select a PDF file first"
  | V2 => "Please select a PDF first"
  end.

Definition msg_uploaded (v : version) : string :=
  match v with
  | V1 => "Document uploaded successfully!"
  | V2 => "Upload successful!"
  end.

Definition msg_upload_fallback (v : version) : string :=
  match v with
  | V1 => "Upload failed. Please try again."
  | V2 => "Upload failed"
  end.

(** [FormData.append] of a value that is not a file appends its string;
    a role is a string or [undefined]. *)
Definition form_string (r : option string) : FormEntry :=
  FormString (string_of (role_value r)).

Definition upload_request (v : version) (f : File) (s : State) : Request :=
  {| req_url := API_BASE v +:+ "/api/upload";
     req_method := "POST";
     req_headers := [];
     req_body := Some (BodyForm
       [("file", FormFile f);
        ("role", form_string (uploadRole (globals s)));
        ("doc_type", FormString (docTypeSelect_value (upload s)))]) |}.

(** [handleUpload] up to its [await fetch(...)].  The boolean tells
    whether a request was issued and the handler is waiting for it. *)
Definition handleUpload_begin (v : version) (s : State) : State * bool :=
  match selectedFile (globals s) with
  | None => (showToast v (msg_no_file v) "error" s, false)
  | Some f =>
    let request := upload_request v f s in
    let s1 :=
      with_upload (fun u => set_uploadResult_innerHTML "" (set_uploadBtn_busy true u)) s in
    (with_fx (add_request request) s1, true)
  end.

(** The first declaration of [displayUploadResult] in revision 1, and the
    only one in revision 2. *)
Definition displayUploadResult_three (v : version) (data : value) : M unit :=
  let* filename := lift (get data "filename") in
  let* filename := lift (to_string filename) in
  let* chunks_created := lift (get data "chunks_created") in
  let* chunks_created := lift (to_string chunks_created) in
  let* doc_type := lift (get data "doc_type") in
  let* doc_type := lift (to_string doc_type) in
  modify (with_upload (set_uploadResult_innerHTML
    (upload_result_three v filename chunks_created doc_type))).

(** The second declaration of [displayUploadResult] in revision 1. *)
Definition displayUploadResult_four (data : value) : M unit :=
  modify (with_upload (set_uploadResult_display "block")) >>
  let* filename := lift (get data "filename") in
  let* filename := lift (to_string filename) in
  let* chunks_created := lift (get data "chunks_created") in
  let* chunks_created := lift (to_string chunks_created) in
  let* text_length := lift (get data "text_length") in
  let* text_length := lift (to_string text_length) in
  let* doc_type := lift (get data "doc_type") in
  let* doc_type := lift (to_string doc_type) in
  modify (with_upload (set_uploadResult_innerHTML
    (upload_result_four filename chunks_created text_length doc_type))).

(** Function declarations are hoisted and a later declaration of the
    same name replaces an earlier one: in revision 1 every call reaches
    the second declaration. *)
Definition displayUploadResult (v : version) (data : value) : M unit :=
  match v with
  | V1 => displayUploadResult_four data
  | V2 => displayUploadResult_three V2 data
  end.

(** The body of the [try] block of [handleUpload], from the point where
    the outcome of the request is known. *)
Definition handleUpload_try (v : version) (o : fetch_outcome) : M unit :=
  let* response := await_fetch o in
  let* data := await_json response in
  if ok response then
    modify (showToast v (msg_uploaded v) "success") >>
    displayUploadResult v data >>
    modify (setTimeout 2000 ResetUploadZone)
  else
    let* detail := lift (get data "detail") in
    let* text := lift (to_string (if truthy detail then detail else VStr "Upload failed")) in
    throw {| message := text |}.

Definition handleUpload_catch (v : version) (error : JsError) : M unit :=
  modify (console_write Err "Upload error:" (Some error)) >>
  modify (showToast v (or_string (message error) (msg_upload_fallback v)) "error").

Definition handleUpload_resume (v : version) (o : fetch_outcome) : State -> State :=
  exec (try_finally
          (try_catch (handleUpload_try v o) (handleUpload_catch v))
          (with_upload (set_uploadBtn_busy false))).

(** One run of [handleUpload] against a request that comes to [o]. *)
Definition handleUpload (v : version) (o : fetch_outcome) (s : State) : State :=
  let (s1, waiting) := handleUpload_begin v s in
  if waiting then handleUpload_resume v o s1 else s1.

(** *** Role selection *)

Definition set_chip_active (b : bool) (c : Chip) : Chip :=
  {| chip_role := chip_role c; chip_target := chip_target c;
     chip_parent := chip_parent c; chip_ancestors := chip_ancestors c;
     chip_active := b |}.

(** [element.querySelectorAll('.chip')] finds the chips anywhere below
    [element]: those that sit in it and those that sit in an element
    inside it. *)
Definition chip_below (element : nat) (c : Chip) : bool :=
  Nat.eqb (chip_parent c) element || existsb (Nat.eqb element) (chip_ancestors c).

(** The listener [initializeRoleButtons] puts on chip [i]. *)
Definition chip_click (i : nat) (s : State) : State :=
  match chips s !! i with
  | None => s
  | Some chip =>
    let role := chip_role chip in
    let target :=
      match chip_target chip with
      | Some t => or_string t "upload"
      | None => "upload"
      end in
    let s1 :=
      with_chips (fun cs =>
        alter (set_chip_active true) i
          ((fun c => if chip_below (chip_parent chip) c
                     then set_chip_active false c else c) <$> cs)) s in
    if String.eqb target "search"
    then with_globals (set_searchRole role) s1
    else with_globals (set_uploadRole role) s1
  end.

(** *** Search *)

Definition msg_search_fallback (v : version) : string :=
  match v with
  | V1 => "Search failed. Please try again."
  | V2 => "Search failed"
  end.

Definition msg_no_sources (v : version) : string :=
  match v with
  | V1 => "No sources available"
  | V2 => "No sources"
  end.

Definition query_request (v : version) (query : string) (s : State) : Request :=
  {| req_url := API_BASE v +:+ "/api/query";
     req_method := "POST";
     req_headers := [("Content-Type", "application/json")];
     req_body := BodyText <$>
       JSON_stringify (VObj [("query", VStr query);
                             ("role", role_value (searchRole (globals s)))]) |}.

(** [handleSearch] up to its [await fetch(...)]. *)
Definition handleSearch_begin (v : version) (s : State) : State * bool :=
  let query := trim (queryInput_value (search s)) in
  if String.eqb query "" then
    (showToast v "Please enter a question" "error" s, false)
  else
    let request := query_request v query s in
    let s1 :=
      with_search (fun x =>
        set_answerContainer_display "none" (set_loadingState_display "block" x)) s in
    (with_fx (add_request request) s1, true).

(** Sequencing of steps that can throw. *)
Definition and_then {A B} (r : result A) (k : A -> result B) : result B :=
  match r with
  | Ok a => k a
  | Throw e => Throw e
  end.

(** The callback of [data.sources.map]: the template literal reads and
    converts its values from left to right. *)
Definition render_source (source : value) : result string :=
  and_then (get source "filename") (fun filename =>
  and_then (to_string filename) (fun filename =>
  and_then (get source "page") (fun page =>
  and_then (if truthy page
            then and_then (to_string page) (fun p => Ok (source_page_markup p))
            else Ok "") (fun page =>
  and_then (get source "similarity") (fun similarity =>
  and_then (to_number similarity) (fun similarity =>
  Ok (source_item_markup filename page (num_percent similarity)))))))).

Fixpoint render_sources (items : list value) : result string :=
  match items with
  | [] => Ok ""
  | source :: rest =>
    match render_source source with
    | Throw e => Throw e
    | Ok first =>
      match render_sources rest with
      | Throw e => Throw e
      | Ok others => Ok (first +:+ others)
      end
    end
  end.

(** [sources.map(...).join('')]: only an array has a [map] to call. *)
Definition map_join_sources (sources : value) : result string :=
  match sources with
  | VArr items => render_sources items
  | VUndefined => Throw {| message := msg_read_of_undefined "map" |}
  | VNull => Throw {| message := msg_read_of_null "map" |}
  | _ => Throw {| message := msg_not_a_function "data.sources.map" |}
  end.

Definition no_sources_markup (v : version) : string :=
  html "<div style='color: var(--text-tertiary); font-size: 0.875rem;'>"
  +:+ msg_no_sources v +:+ "</div>".

(** Scrolling the answer into view moves the viewport only, which the
    state does not record. *)
Definition displayAnswer (v : version) (data : value) : M unit :=
  modify (with_search (set_loadingState_display "none")) >>
  modify (with_search (set_answerContainer_display "block")) >>
  let* answer := lift (get data "answer") in
  let* text := lift (dom_text answer) in
  modify (with_search (set_answerText text)) >>
  let* sources := lift (get data "sources") in
  let* some := (if truthy sources then lift (length_gt_zero sources) else ret false) in
  if (some : bool) then
    let* markup := lift (map_join_sources sources) in
    modify (with_search (set_sourcesList_innerHTML markup))
  else
    modify (with_search (set_sourcesList_innerHTML (no_sources_markup v))).

Definition handleSearch_try (v : version) (o : fetch_outcome) : M unit :=
  let* response := await_fetch o in
  let* data := await_json response in
  if ok response then
    displayAnswer v data
  else
    let* detail := lift (get data "detail") in
    let* text := lift (to_string (if truthy detail then detail else VStr "Search failed")) in
    throw {| message := text |}.

Definition handleSearch_catch (v : version) (error : JsError) : M unit :=
  modify (console_write Err "Search error:" (Some error)) >>
  modify (showToast v (or_string (message error) (msg_search_fallback v)) "error") >>
  modify (with_search (set_loadingState_display "none")).

Definition handleSearch_resume (v : version) (o : fetch_outcome) : State -> State :=
  exec (try_catch (handleSearch_try v o) (handleSearch_catch v)).

(** One run of [handleSearch] against a request that comes to [o]. *)
Definition handleSearch (v : version) (o : fetch_outcome) (s : State) : State :=
  let (s1, waiting) := handleSearch_begin v s in
  if waiting then handleSearch_resume v o s1 else s1.

(** *** Backend health check *)

Definition msg_healthy (v : version) : string :=
  match v with
  | V1 => "✅ Backend is healthy"
  | V2 => "✅ Backend healthy"
  end.

Definition msg_connection (v : version) : string :=
  match v with
  | V1 => "Warning: Backend connection issue. Check API_BASE in script.js"
  | V2 => "Backend connection issue"
  end.

Definition health_request (v : version) : Request :=
  {| req_url := API_BASE v +:+ "/api/health"; req_method := "GET";
     req_headers := []; req_body := None |}.

Definition checkBackendHealth_begin (v : version) : State -> State :=
  with_fx (add_request (health_request v)).

Definition checkBackendHealth_try (v : version) (o : fetch_outcome) : M unit :=
  let* response := await_fetch o in
  if ok response then
    modify (console_write Log (msg_healthy v) None)
  else
    modify (console_write Warn "⚠️ Backend health check failed" None).

Definition checkBackendHealth_catch (v : version) (error : JsError) : M unit :=
  modify (console_write Err "❌ Cannot connect to backend:" (Some error)) >>
  modify (showToast v (msg_connection v) "error").

Definition checkBackendHealth (v : version) (o : fetch_outcome) (s : State) : State :=
  exec (try_catch (checkBackendHealth_try v o) (checkBackendHealth_catch v))
       (checkBackendHealth_begin v s).

(** *** Listeners of the page *)

(** The [keypress] listener of the query input: Enter without Shift
    searches. *)
Definition on_keypress (v : version) (key : string) (shiftKey : bool)
    (o : fetch_outcome) (s : State) : State :=
  if String.eqb key "Enter" && negb shiftKey then handleSearch v o s else s.

(** [DOMContentLoaded]: the listeners are installed and the backend is
    checked. *)
Definition on_DOMContentLoaded := checkBackendHealth.

Definition msg_unexpected (v : version) : string :=
  match v with
  | V1 => "An unexpected error occurred"
  | V2 => "An error occurred"
  end.

Definition on_window_error (v : version) (error : option JsError) (s : State) : State :=
  showToast v (msg_unexpected v) "error" (console_write Err "Global error:" error s).

Definition on_unhandledrejection (v : version) (reason : option JsError) (s : State)
    : State :=
  showToast v (msg_unexpected v) "error"
    (console_write Err
       match v with
       | V1 => "Unhandled promise rejection:"
       | V2 => "Promise rejection:"
       end reason s).

End Script.

(** * What the properties speak of *)

(** [m] never changes the part of the state that [proj] reads, whether
    it completes or throws. *)
Definition keeps {A B : Type} (proj : State -> A) (m : M B) : Prop :=
  forall s, proj (fst (m s)) = proj s.

Section Outcomes.
Context `{RT : Runtime}.

(** ** Toasts and file selection *)

(** An error toast with [message] is the only thing that happened. *)
Definition only_error_toast (v : version) (message : string) (s s' : State) : Prop :=
  globals s' = globals s /\ upload s' = upload s /\ search s' = search s /\
  chips s' = chips s /\
  requests (fx s') = requests (fx s) /\ console (fx s') = console (fx s) /\
  toasts (fx s') = toasts (fx s) ++ [new_toast v message "error"] /\
  timers (fx s') = timers (fx s)
    ++ [{| delay := 3000; action := FadeToast (length (toasts (fx s))) |}].

(** The constraints on an upload: a PDF of at most 20 MiB. *)
Definition acceptable (f : File) : Prop :=
  file_type f = "application/pdf" /\ (file_size f <= 20 * 1024 * 1024)%N.

(** [f] became the pending upload, its name is on the upload zone and a
    success toast says so. *)
Definition accepted (v : version) (f : File) (s s' : State) : Prop :=
  selectedFile (globals s') = Some f /\
  uploadText (upload s') = file_name f /\
  toasts (fx s') = toasts (fx s)
    ++ [new_toast v ("Selected: " +:+ file_name f) "success"].

(** An error toast was shown and the pending upload is what it was. *)
Definition refused (v : version) (s s' : State) : Prop :=
  (exists message, toasts (fx s') = toasts (fx s) ++ [new_toast v message "error"]) /\
  selectedFile (globals s') = selectedFile (globals s).

(** ** Health check *)

(** The run wrote the healthy line to the console. *)
Definition reports_healthy (v : version) (s s' : State) : Prop :=
  console (fx s') = console (fx s)
    ++ [{| con_level := Log; con_text := msg_healthy v; con_error := None |}].

(** The run wrote the failed-check warning to the console. *)
Definition reports_unhealthy (s s' : State) : Prop :=
  console (fx s') = console (fx s)
    ++ [{| con_level := Warn; con_text := "⚠️ Backend health check failed";
           con_error := None |}].

(** The run logged the connection error and showed the toast. *)
Definition reports_unreachable (v : version) (msg : string) (s s' : State) : Prop :=
  console (fx s') = console (fx s)
    ++ [{| con_level := Err; con_text := "❌ Cannot connect to backend:";
           con_error := Some {| message := msg |} |}] /\
  toasts (fx s') = toasts (fx s) ++ [new_toast v (msg_connection v) "error"].

(** ** Responses that are not ok *)

(** What holds of the message [m] of the error raised for a body [b],
    and of the text [t] of the toast: the [detail] of the body when that
    is a non-empty string, the generic message when [detail] is absent
    or falsy. *)
Definition detail_or_generic (generic : string) (b : body_outcome) (m t : string) : Prop :=
  forall data, b = BodyJson data -> nullish data = false ->
    (forall d, field data "detail" = VStr d -> d <> "" -> m = d /\ t = d) /\
    (truthy (field data "detail") = false -> m = generic /\ t = generic).

(** [console.error(label, error)] for an error with message [m]. *)
Definition logged_error (label m : string) (s s' : State) : Prop :=
  console (fx s') = console (fx s)
    ++ [{| con_level := Err; con_text := label; con_error := Some {| message := m |} |}].

(** The upload failed: the error was raised and logged, one error toast
    shows it, and the upload result stays empty. *)
Definition upload_failed (v : version) (b : body_outcome) (s s' : State) : Prop :=
  exists m t,
    detail_or_generic "Upload failed" b m t /\
    logged_error "Upload error:" m s s' /\
    toasts (fx s') = toasts (fx s) ++ [new_toast v t "error"] /\
    uploadResult_innerHTML (upload s') = "" /\
    uploadResult_display (upload s') = uploadResult_display (upload s).

(** The search failed: the error was raised and logged, one error toast
    shows it, and the answer stays hidden and untouched. *)
Definition search_failed (v : version) (b : body_outcome) (s s' : State) : Prop :=
  exists m t,
    detail_or_generic "Search failed" b m t /\
    logged_error "Search error:" m s s' /\
    toasts (fx s') = toasts (fx s) ++ [new_toast v t "error"] /\
    hidden (answerContainer_display (search s')) /\
    answerText_textContent (search s') = answerText_textContent (search s) /\
    sourcesList_innerHTML (search s') = sourcesList_innerHTML (search s).

(** The message of the error raised on a response that is not ok. *)
Definition raised_message (generic : string) (b : body_outcome) : string :=
  match b with
  | BodyInvalid msg => msg
  | BodyJson data =>
    match get data "detail" with
    | Throw e => message e
    | Ok detail =>
      match to_string (if truthy detail then detail else VStr generic) with
      | Ok text => text
      | Throw e => message e
      end
    end
  end.

(** ** The answer *)

(** What [displayAnswer] puts in the sources list for [data.sources]. *)
Definition sources_view (v : version) (sources : value) : result string :=
  if truthy sources then
    match length_gt_zero sources with
    | Ok true => map_join_sources sources
    | Ok false => Ok (no_sources_markup v)
    | Throw e => Throw e
    end
  else Ok (no_sources_markup v).

(** A source the callback of [map] renders without an exception: not
    [null], and its [filename], its [similarity] and, when truthy, its
    [page] have primitive values. *)
Definition source_renders (src : value) : bool :=
  negb (nullish src) &&
  convertible (field src "filename") &&
  (negb (truthy (field src "page")) || convertible (field src "page")) &&
  convertible (field src "similarity").

(** Response data [displayAnswer] renders without an exception: JSON
    other than [null] whose [answer] has a primitive value and whose
    [sources] is falsy, has no positive [length], or is an array of
    sources that render. *)
Definition renderable (data : value) : bool :=
  negb (nullish data) &&
  convertible (field data "answer") &&
  match field data "sources" with
  | VArr items => forallb source_renders items
  | VStr s => String.eqb s ""
  | VObj fields =>
    convertible (lookup_field "length" fields) &&
    negb (num_gt_zero (number_of (lookup_field "length" fields)))
  | VUndefined | VNull | VBool _ | VNum _ => true
  end.

(** If the request comes to a 2xx response with JSON in it, that JSON
    is renderable. *)
Definition answer_can_render (o : fetch_outcome) : Prop :=
  forall r data,
    o = Responded r -> ok r = true -> body r = BodyJson data -> renderable data = true.

(** (a) the answer container is visible and holds the answer and the
    sources of the response; no toast. *)
Definition search_succeeded (v : version) (o : fetch_outcome) (s s' : State) : Prop :=
  exists r data,
    o = Responded r /\ ok r = true /\ body r = BodyJson data /\
    visible (answerContainer_display (search s')) /\
    dom_text (field data "answer") = Ok (answerText_textContent (search s')) /\
    sources_view v (field data "sources") = Ok (sourcesList_innerHTML (search s')) /\
    toasts (fx s') = toasts (fx s).

(** (b) an error toast, and the answer container still hidden. *)
Definition search_errored (v : version) (s s' : State) : Prop :=
  hidden (answerContainer_display (search s')) /\
  exists message, toasts (fx s') = toasts (fx s) ++ [new_toast v message "error"].

(** (b) as the catch block has it: an error toast, and the answer
    container as it was when the outcome of the request arrived. *)
Definition search_error_shown (v : version) (s s' : State) : Prop :=
  answerContainer_display (search s') = answerContainer_display (search s) /\
  exists message, toasts (fx s') = toasts (fx s) ++ [new_toast v message "error"].

(** What the continuation of [handleSearch] does when the [try] block
    raises [e] before it changes anything: the catch block alone. *)
Definition search_caught (v : version) (e : JsError) (s : State) : State :=
  with_search (set_loadingState_display "none")
    (showToast v (or_string (message e) (msg_search_fallback v)) "error"
       (console_write Err "Search error:" (Some e) s)).

(** ** More outcomes *)

(** Response data [displayUploadResult] renders without an exception:
    JSON other than [null] whose fields that the template of the
    revision reads have primitive values. *)
Definition upload_renders (v : version) (data : value) : bool :=
  negb (nullish data) &&
  convertible (field data "filename") &&
  convertible (field data "chunks_created") &&
  match v with
  | V1 => convertible (field data "text_length")
  | V2 => true
  end &&
  convertible (field data "doc_type").

(** The request comes to a 2xx response whose body is JSON that
    [displayUploadResult] renders. *)
Definition upload_succeeds (v : version) (o : fetch_outcome) : bool :=
  match o with
  | NetworkFailure _ => false
  | Responded r =>
    ok r && match body r with
            | BodyJson data => upload_renders v data
            | BodyInvalid _ => false
            end
  end.

(** A timer of a toast. *)
Definition toast_timer (t : Timer) : Prop :=
  delay t = 3000%N /\ exists i, action t = FadeToast i.

(** The timer a successful upload arms. *)
Definition reset_timer : Timer := {| delay := 2000; action := ResetUploadZone |}.

(** What [handleUpload] leaves alone in every run. *)
Definition upload_frame (s : State) :=
  (globals s, search s, chips s,
   (uploadZone_dragover (upload s), uploadText (upload s), uploadSubtext (upload s),
    fileInput_value (upload s), docTypeSelect_value (upload s))).

(** What one source puts in the sources list: its file name, its
    similarity as a percentage, and its page when that is truthy. *)
Definition source_shown (src : value) (markup : string) : Prop :=
  Shows (string_of (field src "filename")) markup /\
  Shows (num_percent (number_of (field src "similarity"))) markup /\
  (truthy (field src "page") = true ->
   Shows (source_page_markup (string_of (field src "page"))) markup).

(** What [handleSearch] leaves alone in every run. *)
Definition search_frame (s : State) :=
  (globals s, upload s, chips s, queryInput_value (search s)).

(** What [checkBackendHealth] leaves alone in every run. *)
Definition page (s : State) := (globals s, upload s, search s, chips s).

End Outcomes.

(** * The retrieval core

    The repository holds no backend: the script calls [/api/query] and
    the design document says what must answer it.  The definitions of
    this module follow that document. *)

Module Core.

(** Modelled from the spec: the error taxonomy of the backend core, which
    the repository does not implement. *)
Inductive error :=
| EmptyInputError
| DimensionMismatchError
| UnknownRoleError
| EmbeddingError
| GenerationError
| TimeoutError.

Section Retrieval.
Context {vector score : Type}.

(** Cosine similarity of two vectors and the order of scores
    ([score_ltb a b]: [a] is the lower one); the embedder, which gives no
    vector when it fails. *)
Variable similarity : vector -> vector -> score.
Variable score_ltb : score -> score -> bool.
Variable embed : string -> option vector.

(** Modelled from the spec: a chunk record of the vector index (absent
    from the repository), with the access tag it inherits from its
    document. *)
Record Chunk := {
  chunk_id : nat;
  document_id : nat;
  chunk_text : string;
  chunk_page : option nat;
  embedding : vector;
  access_tag : string
}.

(** Modelled from the spec: a search result (absent from the
    repository), a chunk with its similarity to the query. *)
Record SearchResult := {
  chunk_reference : Chunk;
  similarity_score : score
}.

(** Modelled from the spec: the access control filter's
    [allowed_tags(role)] (absent from the repository).  The mapping is
    configuration; a role it does not know fails with
    [UnknownRoleError]. *)
Definition allowed_tags (config : gmap string (gset string)) (role : string)
    : error + gset string :=
  match config !! role with
  | Some tags => inr tags
  | None => inl UnknownRoleError
  end.

(** Modelled from the spec: the ranking inside the vector index's
    [search] (absent from the repository): by similarity, highest first,
    and among equal scores the chunk inserted earlier first.  [place]
    puts a result in front of a ranked list of results that were
    inserted after it. *)
Fixpoint place (r : SearchResult) (ranked : list SearchResult) : list SearchResult :=
  match ranked with
  | [] => [r]
  | x :: rest =>
    if score_ltb (similarity_score r) (similarity_score x)
    then x :: place r rest
    else r :: x :: rest
  end.

(** Modelled from the spec: the ranked results of [search] (absent from
    the repository), from the candidates in insertion order. *)
Fixpoint rank (results : list SearchResult) : list SearchResult :=
  match results with
  | [] => []
  | r :: rest => place r (rank rest)
  end.

(** Modelled from the spec: the vector index's
    [search(query_vector, k, allowed_tags)] (absent from the
    repository).  The index is the list of its chunks in insertion
    order; only chunks whose access tag is allowed are considered; at
    most [k] results come back, and none is not an error. *)
Definition search (query_vector : vector) (k : nat) (tags : gset string)
    (index : list Chunk) : list SearchResult :=
  take k
    (rank
       ((fun c => {| chunk_reference := c;
                     similarity_score := similarity query_vector (embedding c) |})
        <$> filter (fun c => access_tag c ∈ tags) index)).

(** Modelled from the spec: the retriever's
    [retrieve(query_text, role, k)] (absent from the repository):
    resolve the allowed tags, embed the query, search under that filter,
    return the results as they are.  When the role does not resolve no
    search runs. *)
Definition retrieve (config : gmap string (gset string)) (index : list Chunk)
    (query_text role : string) (k : nat) : error + list SearchResult :=
  match allowed_tags config role with
  | inl e => inl e
  | inr tags =>
    match embed query_text with
    | None => inl EmbeddingError
    | Some query_vector => inr (search query_vector k tags index)
    end
  end.

End Retrieval.
End Core.

(** ** A runtime to run the script on examples

    Numbers are the integers, which a double holds exactly in the range
    the examples use, and NaN ([None]); strings convert to a number when
    they are decimal digits.  Messages are worded as V8 words them. *)

Definition int_to_string (n : option Z) : string :=
  match n with
  | None => "NaN"
  | Some z => if (z <? 0)%Z then "-" +:+ decimal (Z.abs_N z) else decimal (Z.abs_N z)
  end.

Definition int_runtime : Runtime := {|
  num := option Z;
  num_truthy n := match n with Some z => negb (z =? 0)%Z | None => false end;
  num_to_string := int_to_string;
  string_to_num s :=
    if String.eqb s "" then Some 0%Z
    else (fun u => Z.of_N (N.of_uint u)) <$> NilEmpty.uint_of_string s;
  num_NaN := None;
  num_of_N n := Some (Z.of_N n);
  num_gt_zero n := match n with Some z => (0 <? z)%Z | None => false end;
  num_percent n := int_to_string ((fun z => z * 100)%Z <$> n);
  num_to_json n := match n with Some _ => int_to_string n | None => "null" end;
  msg_read_of_null p := "Cannot read properties of null (reading '" +:+ p +:+ "')";
  msg_read_of_undefined p :=
    "Cannot read properties of undefined (reading '" +:+ p +:+ "')";
  msg_not_a_function f := f +:+ " is not a function";
  msg_cannot_convert := "Cannot convert object to primitive value"
|}.

(** A page as the script finds it once loaded. *)
Definition fresh_state : State :=
  {| globals := init_globals;
     upload := {| uploadZone_dragover := false;
                  uploadText := "Drag & drop PDF here";
                  uploadSubtext := "or click to browse";
                  fileInput_value := ""; uploadBtn_disabled := false;
                  uploadBtn_loading := false; uploadResult_display := "";
                  uploadResult_innerHTML := ""; docTypeSelect_value := "Employee" |};
     search := {| queryInput_value := ""; loadingState_display := "none";
                  answerContainer_display := "none"; answerText_textContent := "";
                  sourcesList_innerHTML := "" |};
     chips :=
       [ {| chip_role := Some "Employee"; chip_target := None; chip_parent := 0;
            chip_ancestors := []; chip_active := true |};
         {| chip_role := Some "Admin"; chip_target := None; chip_parent := 0;
            chip_ancestors := []; chip_active := false |};
         {| chip_role := Some "Employee"; chip_target := Some "search";
            chip_parent := 1; chip_ancestors := [];
            chip_active := true |};
         {| chip_role := Some "HR"; chip_target := Some "search";
            chip_parent := 1; chip_ancestors := [];
            chip_active := false |} ];
     fx := {| toasts := []; timers := []; requests := []; console := [] |} |}.

Definition with_query (q : string) : State -> State :=
  with_search (fun x =>
    {| queryInput_value := q; loadingState_display := loadingState_display x;
       answerContainer_display := answerContainer_display x;
       answerText_textContent := answerText_textContent x;
       sourcesList_innerHTML := sourcesList_innerHTML x |}).

Definition report_pdf : File :=
  {| file_name := "report.pdf"; file_type := "application/pdf";
     file_size := 20 * 1024 * 1024 |}.

(** ** Example data *)

(** A response with status 204 and no JSON in its body. *)
Definition no_content : fetch_outcome (RT := int_runtime) :=
  Responded {| status := 204; body := BodyInvalid "Unexpected end of JSON input" |}.

Definition int (z : Z) : value (RT := int_runtime) :=
  VNum (RT := int_runtime) (Some z : option Z).

(** A well-formed answer to an upload. *)
Definition upload_answer : value (RT := int_runtime) :=
  VObj [("filename", VStr "handbook.pdf"); ("chunks_created", int 42);
        ("text_length", int 12345); ("doc_type", VStr "HR")].

Definition respond (code : N) (data : value (RT := int_runtime)) : fetch_outcome :=
  Responded {| status := code; body := BodyJson data |}.

Definition file_chosen (v : version) : State :=
  handleFileSelect v (Some report_pdf) fresh_state.

(** The body of a 422 as a FastAPI backend sends it when a field of the
    request is missing: [detail] is a list of objects. *)
Definition validation_error : value (RT := int_runtime) :=
  VObj [("detail",
         VArr [VObj [("loc", VArr [VStr "body"; VStr "role"]);
                     ("msg", VStr "field required");
                     ("type", VStr "value_error.missing")]])].

Definition asking (q : string) : State := with_query q fresh_state.

Definition pdf_only : value (RT := int_runtime) :=
  VObj [("detail", VStr "Only PDF files are supported")].

Definition no_detail : value (RT := int_runtime) := VObj [].

(** A 200 whose [sources] is a string where a list is expected. *)
Definition sources_as_text : value (RT := int_runtime) :=
  VObj [("answer", VStr "Twenty days a year."); ("sources", VStr "handbook.pdf")].

(** A well-formed answer to a query. *)
Definition query_answer : value (RT := int_runtime) :=
  VObj [("answer", VStr "Twenty days a year.");
        ("sources",
         VArr [VObj [("filename", VStr "handbook.pdf"); ("page", int 12);
                     ("similarity", int 1)];
               VObj [("filename", VStr "policy.pdf"); ("similarity", int 0)]])].

Definition dot (a b : list Z) : Z := foldr Z.add 0%Z (zip_with Z.mul a b).

Definition demo_config : gmap string (gset string) :=
  {[ "Employee" := {[ "Employee" ]};
     "HR" := {[ "HR"; "Employee" ]};
     "Admin" := {[ "Admin"; "HR"; "Employee" ]} ]}.

Definition demo_chunk (n : nat) (tag : string) (e : list Z) : Core.Chunk :=
  {| Core.chunk_id := n; Core.document_id := 0; Core.chunk_text := "";
     Core.chunk_page := None; Core.embedding := e; Core.access_tag := tag |}.

Definition demo_index : list (Core.Chunk (vector := list Z)) :=
  [ demo_chunk 0 "HR" [2; 0]%Z; demo_chunk 1 "Employee" [0; 1]%Z;
    demo_chunk 2 "Admin" [3; 3]%Z; demo_chunk 3 "Employee" [1; 1]%Z;
    demo_chunk 4 "Employee" [1; 5]%Z ].

Definition demo_embed (query_text : string) : option (list Z) := Some [1; 0]%Z.

Definition demo_results : list (Core.SearchResult (vector := list Z) (score := Z)) :=
  [ {| Core.chunk_reference := demo_chunk 3 "Employee" [1; 1]%Z;
       Core.similarity_score := 1%Z |};
    {| Core.chunk_reference := demo_chunk 4 "Employee" [1; 5]%Z;
       Core.similarity_score := 1%Z |};
    {| Core.chunk_reference := demo_chunk 1 "Employee" [0; 1]%Z;
       Core.similarity_score := 0%Z |} ].

Definition too_big : File :=
  {| file_name := "big.pdf"; file_type := "application/pdf";
     file_size := 20 * 1024 * 1024 + 1 |}.

Definition hr_search_chip : Chip :=
  {| chip_role := Some "HR"; chip_target := Some "search"; chip_parent := 1;
     chip_ancestors := []; chip_active := false |}.

Definition admin_upload_chip : Chip :=
  {| chip_role := Some "Admin"; chip_target := None; chip_parent := 0;
     chip_ancestors := []; chip_active := false |}.

(** An answer that has no [sources]. *)
Definition bare_answer : value (RT := int_runtime) :=
  VObj [("answer", VStr "Twenty days a year.")].

Definition handbook_source : value (RT := int_runtime) :=
  VObj [("filename", VStr "handbook.pdf"); ("page", int 12); ("similarity", int 1)].

(** A 200 whose [answer] is an object with a [toString] property of
    its own. *)
Definition answer_with_toString : value (RT := int_runtime) :=
  VObj [("answer", VObj [("toString", int 1)]); ("sources", VArr [])].

(** A source whose [similarity] is such an object. *)
Definition similarity_with_toString : value (RT := int_runtime) :=
  VObj [("filename", VStr "handbook.pdf");
        ("similarity", VObj [("toString", int 1)])].

(** A page whose first chip group (element 1) holds a chip and, nested
    in element 2, a second one; a third chip sits in another group
    (element 3).  Element 0 is the panel around both groups. *)
Definition outer_chip : Chip :=
  {| chip_role := Some "Employee"; chip_target := None; chip_parent := 1;
     chip_ancestors := [0]; chip_active := false |}.

Definition nested_chip : Chip :=
  {| chip_role := Some "HR"; chip_target := None; chip_parent := 2;
     chip_ancestors := [1; 0]; chip_active := true |}.

Definition other_chip : Chip :=
  {| chip_role := Some "Admin"; chip_target := Some "search"; chip_parent := 3;
     chip_ancestors := [0]; chip_active := true |}.

Definition nested_page : State :=
  {| globals := globals fresh_state; upload := upload fresh_state;
     search := search fresh_state;
     chips := [outer_chip; nested_chip; other_chip];
     fx := fx fresh_state |}.

(** A 200 to an upload whose [filename] is an object with a [toString]
    property of its own. *)
Definition filename_with_toString : value (RT := int_runtime) :=
  VObj [("filename", VObj [("toString", int 1)]); ("chunks_created", int 42);
        ("text_length", int 12345); ("doc_type", VStr "HR")].
(** * Properties of the script *)

(** ** Strings *)

Lemma append_cons (c : ascii) (s1 s2 : string) :
  String c s1 +:+ s2 = String c (s1 +:+ s2).
Proof. reflexivity. Qed.

Lemma append_assoc (s1 s2 s3 : string) : (s1 +:+ s2) +:+ s3 = s1 +:+ s2 +:+ s3.
Proof.
  induction s1 as [| c s1 IH]; [reflexivity |].
  rewrite !append_cons, IH. reflexivity.
Qed.

Lemma append_empty_r (s : string) : s +:+ "" = s.
Proof.
  induction s as [| c s IH]; [reflexivity |].
  rewrite append_cons, IH. reflexivity.
Qed.

Lemma is_prefix_spec (p s : string) :
  is_prefix p s = true <-> exists post, s = p +:+ post.
Proof.
  revert s. induction p as [| a p IH]; intros s; cbn.
  - split; [intros _; exists s; reflexivity | reflexivity].
  - destruct s as [| b s].
    + split; [discriminate | intros [post H]; discriminate].
    + rewrite andb_true_iff, Ascii.eqb_eq, IH. split.
      * intros [-> [post ->]]. exists post. reflexivity.
      * intros [post H]. injection H as -> ->. split; [reflexivity | exists post; reflexivity].
Qed.

Lemma contains_spec (needle hay : string) :
  contains needle hay = true <-> Shows needle hay.
Proof.
  unfold Shows. induction hay as [| c hay IH].
  - cbn. rewrite orb_false_r, is_prefix_spec. split.
    + intros [post H]. exists "", post. exact H.
    + intros (pre & post & H). destruct pre; [exists post; exact H | discriminate].
  - cbn [contains]. rewrite orb_true_iff, is_prefix_spec, IH. split.
    + intros [[post H] | (pre & post & H)].
      * exists "", post. exact H.
      * exists (String c pre), post. cbn. rewrite H. reflexivity.
    + intros (pre & post & H). destruct pre as [| a pre].
      * left. exists post. exact H.
      * right. cbn in H. injection H as -> ->. exists pre, post. reflexivity.
Qed.

Lemma Shows_middle (pre needle post : string) : Shows needle (pre +:+ needle +:+ post).
Proof. exists pre, post. reflexivity. Qed.

Lemma Shows_append_l (pre needle hay : string) :
  Shows needle hay -> Shows needle (pre +:+ hay).
Proof.
  intros (a & b & ->). exists (pre +:+ a), b. rewrite append_assoc. reflexivity.
Qed.

(** [trim] takes off white space of one, two and three bytes: here a
    tab, U+00A0 and U+3000 in front, U+2028 and a space behind. *)
Example trim_multibyte :
  trim (String "009"%char
          (String (ascii_of_N 194) (String (ascii_of_N 160)
             (String (ascii_of_N 227) (String (ascii_of_N 128) (String (ascii_of_N 128)
                ("a b" +:+ String (ascii_of_N 226) (String (ascii_of_N 128)
                              (String (ascii_of_N 168) " ")))))))))
  = "a b".
Proof. reflexivity. Qed.

Example trim_blank : trim (String "009"%char "  ") = "".
Proof. reflexivity. Qed.

Example json_quote_escapes :
  json_quote (String dq ("a\b" +:+ String "010"%char (String "001"%char "")))
  = String dq (String "\"%char (String dq ("a\\b\n\u0001" +:+ String dq ""))).
Proof. reflexivity. Qed.

Example size_in_MiB_limit : size_in_MiB_fixed2 (20 * 1024 * 1024) = "20.00".
Proof. reflexivity. Qed.

Example size_in_MiB_rounds_up : size_in_MiB_fixed2 5243 = "0.01".
Proof. reflexivity. Qed.

Example size_in_MiB_rounds_down : size_in_MiB_fixed2 5242 = "0.00".
Proof. reflexivity. Qed.

(** ** What a piece of handler code leaves alone *)

Section Frames.
Context {A : Type} (proj : State -> A).

Lemma keeps_ret {B} (b : B) : keeps proj (ret b).
Proof. intros s. reflexivity. Qed.

Lemma keeps_throw {B} e : keeps proj (@throw B e).
Proof. intros s. reflexivity. Qed.

Lemma keeps_lift {B} (r : result B) : keeps proj (lift r).
Proof. intros s. reflexivity. Qed.

Lemma keeps_modify f : (forall s, proj (f s) = proj s) -> keeps proj (modify f).
Proof. intros Hf s. apply Hf. Qed.

Lemma keeps_bind {B C} (m : M B) (k : B -> M C) :
  keeps proj m -> (forall b, keeps proj (k b)) -> keeps proj (bind m k).
Proof.
  intros Hm Hk s. unfold bind. specialize (Hm s).
  destruct (m s) as [s1 [b|e]]; simpl in *.
  - rewrite Hk. exact Hm.
  - exact Hm.
Qed.

Lemma keeps_try_catch body handler :
  keeps proj body -> (forall e, keeps proj (handler e)) -> keeps proj (try_catch body handler).
Proof.
  intros Hb Hh s. unfold try_catch. specialize (Hb s).
  destruct (body s) as [s1 [b|e]]; simpl in *.
  - exact Hb.
  - rewrite Hh. exact Hb.
Qed.

Lemma keeps_try_finally {B} (body : M B) finalizer :
  keeps proj body -> (forall s, proj (finalizer s) = proj s) ->
  keeps proj (try_finally body finalizer).
Proof.
  intros Hb Hf s. unfold try_finally. specialize (Hb s).
  destruct (body s) as [s1 r]; simpl in *. rewrite Hf. exact Hb.
Qed.

End Frames.

(** Splits handler code along its structure, down to the state updates. *)
Ltac frame_step :=
  first
    [ apply keeps_ret | apply keeps_throw | apply keeps_lift
    | apply keeps_try_finally | apply keeps_try_catch | apply keeps_bind
    | apply keeps_modify; intros ?; reflexivity
    | match goal with
      | |- keeps _ (if ?b then _ else _) => destruct b
      | |- keeps _ (match ?x with _ => _ end) => destruct x
      | |- forall _, _ => intros ?
      end ].
Ltac frame := repeat frame_step.

Section Properties.
Context `{RT : Runtime}.

(** *** Toasts *)

Lemma showToast_toasts v message type s :
  toasts (fx (showToast v message type s))
  = toasts (fx s) ++ [new_toast v message type].
Proof. reflexivity. Qed.

Lemma new_toast_type_inj v m1 m2 t1 t2 :
  new_toast v m1 t1 = new_toast v m2 t2 -> t1 = t2.
Proof.
  intros H. apply (f_equal toast_className) in H. cbn in H.
  injection H as H. exact H.
Qed.

Lemma showToast_only_error_toast v message s :
  only_error_toast v message s (showToast v message "error" s).
Proof. repeat split. Qed.

(** *** File selection *)

Lemma acceptable_dec f :
  acceptable f <->
  negb (String.eqb (file_type f) "application/pdf") = false /\
  (20 * 1024 * 1024 <? file_size f)%N = false.
Proof.
  unfold acceptable. rewrite negb_false_iff, String.eqb_eq, N.ltb_ge. tauto.
Qed.

(** C1: a file handed to [handleFileSelect] becomes the pending upload,
    with its name shown, exactly when its type is [application/pdf] and
    its size is at most 20*1024*1024 bytes; any other file gets an error
    toast and leaves [selectedFile] as it was.  A PDF of exactly
    20*1024*1024 bytes is accepted. *)
Theorem handleFileSelect_accepts_iff (v : version) (f : File) (s : State) :
  let s' := handleFileSelect v (Some f) s in
  (accepted v f s s' <-> acceptable f) /\
  (~ acceptable f -> refused v s s') /\
  (file_type f = "application/pdf" -> file_size f = (20 * 1024 * 1024)%N ->
   accepted v f s s').
Proof.
  intros s'. subst s'.
  assert (Hyes : acceptable f -> accepted v f s (handleFileSelect v (Some f) s)).
  { intros Ha. apply acceptable_dec in Ha as [Ht Hs].
    unfold handleFileSelect. rewrite Ht, Hs. repeat split. }
  assert (Hno : ~ acceptable f -> refused v s (handleFileSelect v (Some f) s)).
  { intros Hn. rewrite acceptable_dec in Hn. unfold handleFileSelect.
    destruct (negb (file_type f =? "application/pdf")%string) eqn:Ht.
    - split; [eexists; apply showToast_toasts | reflexivity].
    - destruct (20 * 1024 * 1024 <? file_size f)%N eqn:Hs; [| tauto].
      split; [eexists; apply showToast_toasts | reflexivity]. }
  split; [split; [| exact Hyes] | split; [exact Hno |]].
  - intros (_ & _ & Htoast).
    destruct (decide (acceptable f)) as [Ha | Hn]; [exact Ha | exfalso].
    destruct (Hno Hn) as [[message Hm] _]. rewrite Hm in Htoast.
    apply app_inv_head in Htoast.
    assert (E : new_toast v message "error"
                = new_toast v ("Selected: " +:+ file_name f) "success") by congruence.
    apply new_toast_type_inj in E. discriminate E.
  - intros Ht Hs. apply Hyes. split; [exact Ht | rewrite Hs; reflexivity].
Qed.

(** *** Requests *)

Lemma handleUpload_resume_requests v o s :
  requests (fx (handleUpload_resume v o s)) = requests (fx s).
Proof.
  unfold handleUpload_resume, exec.
  apply (keeps_try_finally (fun s => requests (fx s))); [| reflexivity].
  unfold handleUpload_try, handleUpload_catch, displayUploadResult,
    displayUploadResult_three, displayUploadResult_four, await_fetch, await_json.
  frame.
Qed.

Lemma handleSearch_resume_requests v o s :
  requests (fx (handleSearch_resume v o s)) = requests (fx s).
Proof.
  unfold handleSearch_resume, exec.
  apply (keeps_try_catch (fun s => requests (fx s)));
    unfold handleSearch_try, handleSearch_catch, displayAnswer, await_fetch, await_json;
    frame.
Qed.

(** C3: a search whose query trims to a non-empty string issues exactly
    one request: a POST to [API_BASE/api/query] with the header
    [Content-Type: application/json] and, as its body, the JSON text of
    the object with the two fields [query] (the trimmed input) and [role]
    (the current [searchRole]). *)
Theorem handleSearch_issues_query (v : version) (o : fetch_outcome) (s : State)
    (query : string) :
  trim (queryInput_value (search s)) = query ->
  query <> "" ->
  requests (fx (handleSearch v o s))
  = requests (fx s)
    ++ [ {| req_url := API_BASE v +:+ "/api/query";
            req_method := "POST";
            req_headers := [("Content-Type", "application/json")];
            req_body := BodyText <$>
              JSON_stringify
                (VObj [("query", VStr query);
                       ("role", role_value (searchRole (globals s)))]) |} ].
Proof.
  intros Hq Hne. unfold handleSearch, handleSearch_begin. rewrite Hq.
  destruct (String.eqb_spec query "") as [He | _]; [contradiction |].
  rewrite handleSearch_resume_requests. reflexivity.
Qed.

(** With a role selected, the body is the text
    [{"query":<query>,"role":<role>}]. *)
Lemma query_body_text v query role s :
  searchRole (globals s) = Some role ->
  req_body (query_request v query s)
  = Some (BodyText ("{" +:+ json_quote "query" +:+ ":" +:+ json_quote query
                    +:+ "," +:+ json_quote "role" +:+ ":" +:+ json_quote role +:+ "}")).
Proof.
  intros Hr. unfold query_request. rewrite Hr. cbn.
  rewrite !append_assoc. reflexivity.
Qed.

(** C4: an upload with a file selected issues exactly one request: a
    POST to [API_BASE/api/upload] whose form body has exactly the three
    fields [file] (the selected file), [role] (the current [uploadRole])
    and [doc_type] (the current value of the document type select). *)
Theorem handleUpload_issues_upload (v : version) (o : fetch_outcome) (s : State)
    (f : File) :
  selectedFile (globals s) = Some f ->
  requests (fx (handleUpload v o s))
  = requests (fx s)
    ++ [ {| req_url := API_BASE v +:+ "/api/upload";
            req_method := "POST";
            req_headers := [];
            req_body := Some (BodyForm
              [("file", FormFile f);
               ("role", FormString
                  match uploadRole (globals s) with
                  | Some role => role
                  | None => "undefined"
                  end);
               ("doc_type", FormString (docTypeSelect_value (upload s)))]) |} ].
Proof.
  intros Hf. unfold handleUpload, handleUpload_begin. rewrite Hf.
  rewrite handleUpload_resume_requests. cbn.
  unfold upload_request, form_string. destruct (uploadRole (globals s)); reflexivity.
Qed.

(** *** Nothing to send *)

(** C10: [handleUpload] with no file selected, and [handleSearch] with a
    query that trims to the empty string, issue no request and change
    neither the module-level variables nor anything displayed: an error
    toast is all that happens. *)
Theorem nothing_to_send_only_toast (v : version) (o : fetch_outcome) (s : State) :
  (selectedFile (globals s) = None ->
   only_error_toast v (msg_no_file v) s (handleUpload v o s)) /\
  (trim (queryInput_value (search s)) = "" ->
   only_error_toast v "Please enter a question" s (handleSearch v o s)).
Proof.
  split.
  - intros Hf. unfold handleUpload, handleUpload_begin. rewrite Hf.
    apply showToast_only_error_toast.
  - intros Hq. unfold handleSearch, handleSearch_begin. rewrite Hq.
    apply showToast_only_error_toast.
Qed.

(** *** Role chips *)

(** C9: a click on a role chip writes the chip's [data-role] to exactly
    one role variable: [searchRole] when its [data-target] is [search],
    [uploadRole] otherwise, also when the chip has no [data-target]; the
    other role variable and [selectedFile] keep their values. *)
Theorem chip_click_sets_one_role (i : nat) (chip : Chip) (s : State) :
  chips s !! i = Some chip ->
  let s' := chip_click i s in
  selectedFile (globals s') = selectedFile (globals s) /\
  (chip_target chip = Some "search" ->
   searchRole (globals s') = chip_role chip /\
   uploadRole (globals s') = uploadRole (globals s)) /\
  (chip_target chip <> Some "search" ->
   uploadRole (globals s') = chip_role chip /\
   searchRole (globals s') = searchRole (globals s)).
Proof.
  intros Hi s'. subst s'. unfold chip_click. rewrite Hi.
  set (target := match chip_target chip with
                 | Some t => or_string t "upload"
                 | None => "upload"
                 end).
  assert (Ht : String.eqb target "search" = true <-> chip_target chip = Some "search").
  { subst target. destruct (chip_target chip) as [t |].
    - unfold or_string. destruct (String.eqb_spec t "") as [-> | Hne].
      + split; intros H; discriminate H.
      + rewrite String.eqb_eq. split; congruence.
    - split; intros H; discriminate H. }
  destruct (String.eqb target "search") eqn:E.
  - assert (Hs : chip_target chip = Some "search") by (apply Ht; reflexivity).
    split; [reflexivity |].
    split; [intros _; split; reflexivity | intros Hn; contradiction].
  - assert (Hn : chip_target chip <> Some "search").
    { intros Hc. apply Ht in Hc. discriminate Hc. }
    split; [reflexivity |].
    split; [intros Hc; contradiction | intros _; split; reflexivity].
Qed.

(** *** Backend health check *)

(** C8, as amended: [checkBackendHealth] sends one GET to
    [API_BASE/api/health] and reports the backend healthy exactly when a
    response arrives whose status is in 200..299, whatever its body; a
    response with any other status is reported as a failed health check,
    with no toast; a network failure is reported as such and shows an
    error toast. *)
Theorem checkBackendHealth_healthy_iff_ok (v : version) (o : fetch_outcome) (s : State) :
  let s' := checkBackendHealth v o s in
  requests (fx s') = requests (fx s) ++ [health_request v] /\
  (reports_healthy v s s' <->
   exists r, o = Responded r /\ (200 <= status r <= 299)%N) /\
  (forall r, o = Responded r -> ~ (200 <= status r <= 299)%N ->
     reports_unhealthy s s' /\ toasts (fx s') = toasts (fx s)) /\
  (forall msg, o = NetworkFailure msg -> reports_unreachable v msg s s').
Proof.
  intros s'. subst s'.
  assert (Hok : forall r, ok r = true <-> (200 <= status r <= 299)%N).
  { intros r. unfold ok. rewrite andb_true_iff, !N.leb_le. reflexivity. }
  destruct o as [msg | r]; [| destruct (ok r) eqn:E].
  - split; [reflexivity |]. split; [| split].
    + split.
      * intros H. unfold reports_healthy in H. cbn in H.
        apply app_inv_head in H. discriminate H.
      * intros (r & Hr & _). discriminate Hr.
    + intros r Hr. discriminate Hr.
    + intros msg' Hm. injection Hm as <-. split; reflexivity.
  - assert (Hrun : reports_healthy v s (checkBackendHealth v (Responded r) s)).
    { unfold reports_healthy, checkBackendHealth, checkBackendHealth_try,
        try_catch, exec, bind. cbn. rewrite E. reflexivity. }
    split; [| split; [| split]].
    + unfold checkBackendHealth, checkBackendHealth_try, try_catch, exec, bind.
      cbn. rewrite E. reflexivity.
    + split; [intros _; exists r; split; [reflexivity | apply Hok, E] | intros _; exact Hrun].
    + intros r' Hr Hn. injection Hr as <-. exfalso. apply Hn, Hok, E.
    + intros msg Hm. discriminate Hm.
  - assert (Hrun : reports_unhealthy s (checkBackendHealth v (Responded r) s) /\
                   toasts (fx (checkBackendHealth v (Responded r) s)) = toasts (fx s)).
    { unfold reports_unhealthy, checkBackendHealth, checkBackendHealth_try,
        try_catch, exec, bind. cbn. rewrite E. split; reflexivity. }
    split; [| split; [| split]].
    + unfold checkBackendHealth, checkBackendHealth_try, try_catch, exec, bind.
      cbn. rewrite E. reflexivity.
    + split.
      * intros H. destruct Hrun as [Hw _]. unfold reports_healthy in H.
        unfold reports_unhealthy in Hw. rewrite Hw in H.
        apply app_inv_head in H. discriminate H.
      * intros (r' & Hr & Hs). injection Hr as <-. apply Hok in Hs. congruence.
    + intros r' Hr _. injection Hr as <-. exact Hrun.
    + intros msg Hm. discriminate Hm.
Qed.

(** *** Reading response data *)

Lemma get_field (data : value) (p : string) :
  nullish data = false -> get data p = Ok (field data p).
Proof. destruct data; cbn; intros H; try discriminate H; reflexivity. Qed.

Lemma to_string_convertible (x : value) :
  convertible x = true -> to_string x = Ok (string_of x).
Proof. intros H. unfold to_string. rewrite H. reflexivity. Qed.

Lemma to_number_convertible (x : value) :
  convertible x = true -> to_number x = Ok (number_of x).
Proof. intros H. unfold to_number. rewrite H. reflexivity. Qed.

Lemma upload_renders_fields v data :
  upload_renders v data = true ->
  nullish data = false /\
  convertible (field data "filename") = true /\
  convertible (field data "chunks_created") = true /\
  (v = V1 -> convertible (field data "text_length") = true) /\
  convertible (field data "doc_type") = true.
Proof.
  unfold upload_renders. rewrite !andb_true_iff, negb_true_iff.
  intros [[[[Hd Hf] Hc] Ht] Hdoc]. repeat split; try assumption.
  intros ->. exact Ht.
Qed.

Lemma Shows_here (needle post : string) : Shows needle (needle +:+ post).
Proof. exists "", post. reflexivity. Qed.

(** Finds a spliced value in a template. *)
Ltac shows := repeat first [ apply Shows_here | apply Shows_append_l ].

(** *** The upload result *)

(** The whole of a run of [handleUpload] on a response that is [ok] and
    carries JSON that [displayUploadResult] renders. *)
Lemma handleUpload_ok_run v r data f s :
  selectedFile (globals s) = Some f ->
  ok r = true -> body r = BodyJson data -> upload_renders v data = true ->
  handleUpload v (Responded r) s
  = with_upload (set_uploadBtn_busy false)
      (setTimeout 2000 ResetUploadZone
        (fst (displayUploadResult v data
               (showToast v (msg_uploaded v) "success"
                  (fst (handleUpload_begin v s)))))) /\
  snd (displayUploadResult v data
         (showToast v (msg_uploaded v) "success" (fst (handleUpload_begin v s))))
  = Ok tt.
Proof.
  intros Hf Hok Hb Hr.
  destruct (upload_renders_fields v data Hr) as (Hd & H1 & H2 & H3 & H4).
  unfold handleUpload, handleUpload_begin. rewrite Hf.
  unfold handleUpload_resume, exec, try_finally, try_catch, handleUpload_try,
    bind, await_fetch, await_json, ret, modify. cbn. rewrite Hb, Hok. cbn.
  destruct v; unfold displayUploadResult, displayUploadResult_four,
    displayUploadResult_three, bind, lift, modify; cbn;
    rewrite !(get_field data _ Hd);
    rewrite ?(to_string_convertible _ H1), ?(to_string_convertible _ H2),
      ?(to_string_convertible _ H4), ?(to_string_convertible _ (H3 eq_refl));
    cbn; split; reflexivity.
Qed.

(** C7, as amended: for a 2xx upload response whose body is JSON other
    than [null] and whose fields that the template reads have primitive
    values (none is an object with a [toString] property of its own, nor
    a list that holds one), the upload result is the template filled
    with the response's fields: in revision 1 (where the second
    declaration of [displayUploadResult] is the one that runs) all four
    of [filename], [chunks_created], [text_length] and [doc_type] are
    shown; in revision 2 [filename], [chunks_created] and [doc_type]
    are. *)
Theorem upload_result_shows_fields (v : version) (r : HttpResponse) (data : value)
    (f : File) (s : State) :
  selectedFile (globals s) = Some f ->
  ok r = true -> body r = BodyJson data -> upload_renders v data = true ->
  let shown := uploadResult_innerHTML (upload (handleUpload v (Responded r) s)) in
  let text p := string_of (field data p) in
  shown = match v with
          | V1 => upload_result_four (text "filename") (text "chunks_created")
                    (text "text_length") (text "doc_type")
          | V2 => upload_result_three V2 (text "filename") (text "chunks_created")
                    (text "doc_type")
          end /\
  Shows (text "filename") shown /\
  Shows (text "chunks_created") shown /\
  Shows (text "doc_type") shown /\
  (v = V1 -> Shows (text "text_length") shown).
Proof.
  intros Hf Hok Hb Hr shown text.
  destruct (upload_renders_fields v data Hr) as (Hd & H1 & H2 & H3 & H4).
  assert (Hshown : shown =
    match v with
    | V1 => upload_result_four (text "filename") (text "chunks_created")
              (text "text_length") (text "doc_type")
    | V2 => upload_result_three V2 (text "filename") (text "chunks_created")
              (text "doc_type")
    end).
  { subst shown. destruct (handleUpload_ok_run v r data f s Hf Hok Hb Hr) as [-> _].
    destruct v; unfold displayUploadResult, displayUploadResult_four,
      displayUploadResult_three, bind, lift, modify; cbn;
      rewrite !(get_field data _ Hd);
      rewrite ?(to_string_convertible _ H1), ?(to_string_convertible _ H2),
        ?(to_string_convertible _ H4), ?(to_string_convertible _ (H3 eq_refl));
      reflexivity. }
  split; [exact Hshown |]. rewrite Hshown. clear Hshown.
  destruct v; unfold upload_result_four, upload_result_three;
    (split; [shows | split; [shows | split; [shows | intros Hv; try discriminate Hv; shows]]]).
Qed.

(** *** Responses that are not ok *)

Lemma raised_message_detail_or_generic generic fallback b :
  generic <> "" ->
  detail_or_generic generic b (raised_message generic b)
    (or_string (raised_message generic b) fallback).
Proof.
  intros Hg data -> Hd. unfold raised_message. rewrite (get_field data _ Hd).
  split.
  - intros d -> Hne. cbn. destruct (String.eqb_spec d "") as [-> | _]; [contradiction |].
    cbn. unfold or_string. destruct (String.eqb_spec d ""); [contradiction | split; reflexivity].
  - intros ->. cbn. unfold or_string.
    destruct (String.eqb_spec generic ""); [contradiction | split; reflexivity].
Qed.

Lemma to_string_cases (x : value) :
  (exists text, to_string x = Ok text) \/
  to_string x = Throw {| message := msg_cannot_convert |}.
Proof.
  unfold to_string. destruct (convertible x); [left; eexists |right]; reflexivity.
Qed.

Lemma handleUpload_not_ok_run v r f s :
  selectedFile (globals s) = Some f -> ok r = false ->
  handleUpload v (Responded r) s
  = with_upload (set_uploadBtn_busy false)
      (showToast v (or_string (raised_message "Upload failed" (body r))
                      (msg_upload_fallback v)) "error"
         (console_write Err "Upload error:"
            (Some {| message := raised_message "Upload failed" (body r) |})
            (fst (handleUpload_begin v s)))).
Proof.
  intros Hf Hok. unfold handleUpload, handleUpload_begin. rewrite Hf.
  unfold handleUpload_resume, exec, try_finally, try_catch, handleUpload_try,
    handleUpload_catch, bind, await_fetch, await_json, ret, modify, throw, lift.
  cbn. rewrite Hok. destruct (body r) as [data | msg]; [| reflexivity].
  cbn. destruct (get data "detail") as [detail | [m]]; [| reflexivity].
  cbn. destruct (truthy detail).
  - destruct (to_string_cases detail) as [[text ->] | ->]; reflexivity.
  - reflexivity.
Qed.

Lemma handleSearch_not_ok_run v r s :
  trim (queryInput_value (search s)) <> "" -> ok r = false ->
  handleSearch v (Responded r) s
  = with_search (set_loadingState_display "none")
      (showToast v (or_string (raised_message "Search failed" (body r))
                      (msg_search_fallback v)) "error"
         (console_write Err "Search error:"
            (Some {| message := raised_message "Search failed" (body r) |})
            (fst (handleSearch_begin v s)))).
Proof.
  intros Hq Hok. unfold handleSearch, handleSearch_begin.
  destruct (String.eqb_spec (trim (queryInput_value (search s))) "") as [He | _];
    [contradiction |].
  unfold handleSearch_resume, exec, try_catch, handleSearch_try,
    handleSearch_catch, bind, await_fetch, await_json, ret, modify, throw, lift.
  cbn. rewrite Hok. destruct (body r) as [data | msg]; [| reflexivity].
  cbn. destruct (get data "detail") as [detail | [m]]; [| reflexivity].
  cbn. destruct (truthy detail).
  - destruct (to_string_cases detail) as [[text ->] | ->]; reflexivity.
  - reflexivity.
Qed.

(** C5, as amended: for an upload or search request whose response is
    not 2xx, the frontend raises an error, shows it as one error toast
    and renders no success result; when the body is JSON other than
    [null], the error's message and the toast are the body's [detail]
    if that is a non-empty string, and the generic message if [detail]
    is absent or falsy. *)
Theorem non_2xx_shows_detail (v : version) (r : HttpResponse) (s : State) :
  ok r = false ->
  (forall f, selectedFile (globals s) = Some f ->
     upload_failed v (body r) s (handleUpload v (Responded r) s)) /\
  (trim (queryInput_value (search s)) <> "" ->
     search_failed v (body r) s (handleSearch v (Responded r) s)).
Proof.
  intros Hok. split.
  - intros f Hf. rewrite (handleUpload_not_ok_run v r f s Hf Hok).
    exists (raised_message "Upload failed" (body r)),
           (or_string (raised_message "Upload failed" (body r)) (msg_upload_fallback v)).
    split; [apply raised_message_detail_or_generic; discriminate |].
    unfold handleUpload_begin. rewrite Hf. repeat split.
  - intros Hq. rewrite (handleSearch_not_ok_run v r s Hq Hok).
    exists (raised_message "Search failed" (body r)),
           (or_string (raised_message "Search failed" (body r)) (msg_search_fallback v)).
    split; [apply raised_message_detail_or_generic; discriminate |].
    unfold handleSearch_begin.
    destruct (String.eqb_spec (trim (queryInput_value (search s))) "") as [He | _];
      [contradiction |].
    repeat split.
Qed.

(** *** The answer *)

Lemma not_succeeded_and_errored v o s s' :
  ~ (search_succeeded v o s s' /\ search_errored v s s').
Proof.
  intros [(r & data & _ & _ & _ & Hvis & _) [Hhid _]].
  unfold visible, hidden in *. congruence.
Qed.

Lemma not_succeeded_and_error_shown v o s s' :
  ~ (search_succeeded v o s s' /\ search_error_shown v s s').
Proof.
  intros [(r & data & _ & _ & _ & _ & _ & _ & Hsame) [_ [m Hm]]].
  rewrite Hsame in Hm. apply (f_equal length) in Hm.
  rewrite length_app in Hm. cbn in Hm. lia.
Qed.

Lemma source_renders_fields (src : value) :
  source_renders src = true ->
  nullish src = false /\
  convertible (field src "filename") = true /\
  (truthy (field src "page") = true -> convertible (field src "page") = true) /\
  convertible (field src "similarity") = true.
Proof.
  unfold source_renders. rewrite !andb_true_iff, orb_true_iff, !negb_true_iff.
  intros [[[Hs Hf] Hp] Hsim]. repeat split; try assumption.
  intros Ht. destruct Hp as [Hp | Hp]; [congruence | exact Hp].
Qed.

(** What the callback of [map] returns for a source that renders. *)
Lemma render_source_ok (src : value) :
  source_renders src = true ->
  render_source src
  = Ok (source_item_markup (string_of (field src "filename"))
          (if truthy (field src "page")
           then source_page_markup (string_of (field src "page")) else "")
          (num_percent (number_of (field src "similarity")))).
Proof.
  intros Hr. destruct (source_renders_fields src Hr) as (Hs & Hf & Hp & Hsim).
  unfold render_source. rewrite !(get_field src _ Hs). cbn [and_then].
  rewrite (to_string_convertible _ Hf). cbn [and_then].
  rewrite (to_number_convertible _ Hsim).
  destruct (truthy (field src "page")) eqn:Ht.
  - rewrite (to_string_convertible _ (Hp eq_refl)). reflexivity.
  - reflexivity.
Qed.

Lemma render_sources_ok (items : list value) :
  forallb source_renders items = true ->
  exists markup, render_sources items = Ok markup.
Proof.
  induction items as [| x items IH]; cbn [forallb render_sources].
  - intros _. eexists. reflexivity.
  - rewrite andb_true_iff. intros [Hx Hrest].
    destruct (IH Hrest) as [others ->].
    rewrite (render_source_ok x Hx). eexists. reflexivity.
Qed.

Lemma dom_text_convertible (x : value) :
  convertible x = true -> exists text, dom_text x = Ok text.
Proof.
  intros H. unfold dom_text.
  destruct x; try (eexists; reflexivity);
    rewrite (to_string_convertible _ H); eexists; reflexivity.
Qed.

Lemma renderable_sources_view v data :
  renderable data = true ->
  nullish data = false /\
  (exists text, dom_text (field data "answer") = Ok text) /\
  exists markup, sources_view v (field data "sources") = Ok markup.
Proof.
  unfold renderable. rewrite !andb_true_iff, negb_true_iff. intros [[Hd Ha] Hs].
  split; [exact Hd |]. split; [apply dom_text_convertible, Ha |].
  unfold sources_view.
  destruct (field data "sources") as [| | b | n | t | items | fields]; cbn in *;
    try (eexists; reflexivity).
  - destruct b; eexists; reflexivity.
  - destruct (num_truthy n); eexists; reflexivity.
  - rewrite Hs. eexists. reflexivity.
  - destruct (bool_decide (items = [])); cbn; [eexists; reflexivity |].
    apply render_sources_ok, Hs.
  - apply andb_true_iff in Hs as [Hc Hn]. apply negb_true_iff in Hn.
    rewrite (to_number_convertible _ Hc), Hn. eexists. reflexivity.
Qed.

Lemma displayAnswer_renders v data text markup s :
  nullish data = false ->
  dom_text (field data "answer") = Ok text ->
  sources_view v (field data "sources") = Ok markup ->
  displayAnswer v data s
  = (with_search
       (fun x => set_sourcesList_innerHTML markup
          (set_answerText text
             (set_answerContainer_display "block"
                (set_loadingState_display "none" x)))) s,
     Ok tt).
Proof.
  intros Hd Ha Hv. unfold displayAnswer, bind, modify, lift, ret. cbn.
  rewrite !(get_field data _ Hd), Ha. unfold sources_view in Hv.
  destruct (truthy (field data "sources")).
  - destruct (length_gt_zero (field data "sources")) as [[|] | e]; try discriminate Hv.
    + rewrite Hv. reflexivity.
    + injection Hv as <-. reflexivity.
  - injection Hv as <-. reflexivity.
Qed.

Lemma bind_modify_fst {B} (f : State -> State) (k : unit -> M B) (s : State) :
  fst (bind (modify f) k s) = fst (k tt (f s)).
Proof. reflexivity. Qed.

Lemma displayAnswer_hides_loading v data s :
  loadingState_display (search (fst (displayAnswer v data s))) = "none".
Proof.
  unfold displayAnswer. rewrite bind_modify_fst.
  match goal with
  | |- loadingState_display (search (fst (?m ?s0))) = _ =>
    transitivity (loadingState_display (search s0)); [| reflexivity];
    apply (keeps_bind (fun s => loadingState_display (search s)))
  end; frame.
Qed.

Lemma handleSearch_begin_waits v s :
  trim (queryInput_value (search s)) <> "" -> snd (handleSearch_begin v s) = true.
Proof.
  intros Hq. unfold handleSearch_begin.
  destruct (String.eqb_spec (trim (queryInput_value (search s))) "") as [He | _];
    [contradiction | reflexivity].
Qed.

Lemma handleSearch_run v o s :
  trim (queryInput_value (search s)) <> "" ->
  handleSearch v o s = handleSearch_resume v o (fst (handleSearch_begin v s)) /\
  fst (handleSearch_begin v s)
  = with_fx (add_request (query_request v (trim (queryInput_value (search s))) s))
      (with_search (fun x =>
         set_answerContainer_display "none" (set_loadingState_display "block" x)) s).
Proof.
  intros Hq. unfold handleSearch, handleSearch_begin.
  destruct (String.eqb_spec (trim (queryInput_value (search s))) "") as [He | _];
    [contradiction | repeat split; reflexivity].
Qed.

Lemma handleSearch_try_ok v r data s :
  ok r = true -> body r = BodyJson data ->
  handleSearch_try v (Responded r) s = displayAnswer v data s.
Proof.
  intros Hok Hb. unfold handleSearch_try, bind, await_fetch, await_json, ret.
  rewrite Hb, Hok. reflexivity.
Qed.

Lemma handleSearch_resume_raises v o s :
  match o with
  | NetworkFailure _ => True
  | Responded r =>
    match body r with
    | BodyInvalid _ => True
    | BodyJson _ => ok r = false
    end
  end ->
  exists e, handleSearch_resume v o s = search_caught v e s.
Proof.
  unfold handleSearch_resume, exec, try_catch, handleSearch_try, bind,
    await_fetch, await_json, ret, throw, lift, search_caught.
  destruct o as [msg | r]; cbn.
  - intros _. exists {| message := msg |}. reflexivity.
  - destruct (body r) as [data | msg]; cbn.
    + intros ->. destruct (get data "detail") as [detail | e]; cbn.
      * destruct (to_string (if truthy detail then detail else VStr "Search failed"))
          as [text | e]; [exists {| message := text |} | exists e]; reflexivity.
      * exists e. reflexivity.
    + intros _. exists {| message := msg |}. reflexivity.
Qed.

Lemma handleSearch_resume_hides_loading v o s :
  hidden (loadingState_display (search (handleSearch_resume v o s))).
Proof.
  assert (Hraise := handleSearch_resume_raises v o s).
  destruct o as [msg | r].
  - destruct (Hraise I) as [e ->]. reflexivity.
  - destruct (body r) as [data | msg] eqn:Hb.
    + destruct (ok r) eqn:Hok.
      * unfold hidden, handleSearch_resume, exec, try_catch.
        rewrite (handleSearch_try_ok v r data s Hok Hb).
        destruct (displayAnswer v data s) as [s1 [[] | e]] eqn:Hd; [| reflexivity].
        apply (f_equal fst) in Hd. cbn in Hd. subst s1.
        apply displayAnswer_hides_loading.
      * destruct (Hraise eq_refl) as [e ->]. reflexivity.
    + destruct (Hraise I) as [e ->]. reflexivity.
Qed.

(** The continuation of [handleSearch], started in whatever state the
    page is in when the outcome of the request arrives. *)
Lemma handleSearch_resume_outcome v o s :
  answer_can_render o ->
  search_succeeded v o s (handleSearch_resume v o s) \/
  search_error_shown v s (handleSearch_resume v o s).
Proof.
  intros Hcan. assert (Hraise := handleSearch_resume_raises v o s).
  assert (Herr : forall e, search_error_shown v s (search_caught v e s)).
  { intros e. split; [reflexivity | eexists; reflexivity]. }
  destruct o as [msg | r].
  - right. destruct (Hraise I) as [e ->]. apply Herr.
  - destruct (body r) as [data | msg] eqn:Hb.
    + destruct (ok r) eqn:Hok.
      * left. exists r, data.
        destruct (renderable_sources_view v data (Hcan r data eq_refl Hok Hb))
          as (Hd & [text Ha] & [markup Hv]).
        unfold handleSearch_resume, exec, try_catch.
        rewrite (handleSearch_try_ok v r data _ Hok Hb).
        rewrite (displayAnswer_renders v data text markup _ Hd Ha Hv). cbn.
        rewrite Ha, Hv. repeat split; assumption.
      * right. destruct (Hraise eq_refl) as [e ->]. apply Herr.
    + right. destruct (Hraise I) as [e ->]. apply Herr.
Qed.

(** C6, as amended: a run of [handleSearch] that issues a request first
    shows the loading state and hides the answer container.  Its
    continuation starts when the outcome of the request arrives, in
    whatever state [s_mid] the page is in by then (the search button is
    never disabled, so other runs may have finished in between), and
    always ends with the loading state hidden.  When the body of a 2xx
    response is one [displayAnswer] can render, the run ends in exactly
    one of (a) the answer container visible with the response's answer
    and sources in it and no new toast, or (b) an error toast with the
    answer container as it was when the outcome arrived: still hidden
    if it was hidden then, as it is when nothing else ran since the
    request was issued. *)
Theorem handleSearch_loading_then_outcome (v : version) (o : fetch_outcome)
    (s s_mid : State) :
  trim (queryInput_value (search s)) <> "" ->
  let s1 := fst (handleSearch_begin v s) in
  let s' := handleSearch_resume v o s_mid in
  snd (handleSearch_begin v s) = true /\
  handleSearch v o s = handleSearch_resume v o s1 /\
  visible (loadingState_display (search s1)) /\
  hidden (answerContainer_display (search s1)) /\
  hidden (loadingState_display (search s')) /\
  (answer_can_render o ->
   (search_succeeded v o s_mid s' \/ search_error_shown v s_mid s') /\
   ~ (search_succeeded v o s_mid s' /\ search_error_shown v s_mid s') /\
   (hidden (answerContainer_display (search s_mid)) ->
    (search_succeeded v o s_mid s' \/ search_errored v s_mid s') /\
    ~ (search_succeeded v o s_mid s' /\ search_errored v s_mid s'))).
Proof.
  intros Hq s1 s'. destruct (handleSearch_run v o s Hq) as [Hrun Hbegin].
  subst s1 s'. split; [apply handleSearch_begin_waits, Hq |]. split; [exact Hrun |].
  split; [rewrite Hbegin; reflexivity |].
  split; [rewrite Hbegin; reflexivity |].
  split; [apply handleSearch_resume_hides_loading |].
  intros Hcan. split; [apply handleSearch_resume_outcome, Hcan |].
  split; [apply not_succeeded_and_error_shown |].
  intros Hhid. split; [| apply not_succeeded_and_errored].
  destruct (handleSearch_resume_outcome v o s_mid Hcan) as [Hs | [Hsame Htoast]].
  - left. exact Hs.
  - right. split; [| exact Htoast]. unfold hidden in *. congruence.
Qed.

(** ** More of the script *)

(** *** What the handlers leave alone *)

Lemma handleUpload_resume_frame v o s :
  upload_frame (handleUpload_resume v o s) = upload_frame s.
Proof.
  unfold handleUpload_resume, exec.
  apply (keeps_try_finally upload_frame); [| reflexivity].
  unfold handleUpload_try, handleUpload_catch, displayUploadResult,
    displayUploadResult_three, displayUploadResult_four, await_fetch, await_json.
  frame.
Qed.

Lemma handleUpload_keeps_frame v o s :
  upload_frame (handleUpload v o s) = upload_frame s.
Proof.
  unfold handleUpload, handleUpload_begin.
  destruct (selectedFile (globals s)) as [f |]; [| reflexivity].
  rewrite handleUpload_resume_frame. reflexivity.
Qed.

(** X10: whatever the request comes to, a run of [handleUpload] changes
    neither the role variables nor the selected file, nothing of the
    search panel, no chip, and in the upload panel neither the zone's
    texts nor the file input nor the document type. *)
Theorem handleUpload_frame (v : version) (o : fetch_outcome) (s : State) :
  globals (handleUpload v o s) = globals s /\
  search (handleUpload v o s) = search s /\
  chips (handleUpload v o s) = chips s /\
  uploadZone_dragover (upload (handleUpload v o s)) = uploadZone_dragover (upload s) /\
  uploadText (upload (handleUpload v o s)) = uploadText (upload s) /\
  uploadSubtext (upload (handleUpload v o s)) = uploadSubtext (upload s) /\
  fileInput_value (upload (handleUpload v o s)) = fileInput_value (upload s) /\
  docTypeSelect_value (upload (handleUpload v o s)) = docTypeSelect_value (upload s).
Proof.
  pose proof (handleUpload_keeps_frame v o s) as H. unfold upload_frame in H.
  injection H as Hg Hs Hc Hd Ht Hsub Hfi Hdoc. repeat split; assumption.
Qed.

Lemma handleSearch_resume_frame v o s :
  search_frame (handleSearch_resume v o s) = search_frame s.
Proof.
  unfold handleSearch_resume, exec.
  apply (keeps_try_catch search_frame);
    unfold handleSearch_try, handleSearch_catch, displayAnswer, await_fetch, await_json;
    frame.
Qed.

(** X9: whatever the request comes to, a run of [handleSearch] changes
    neither the role variables nor the selected file, nothing of the
    upload panel, no chip, and not the text in the query input. *)
Theorem handleSearch_frame (v : version) (o : fetch_outcome) (s : State) :
  globals (handleSearch v o s) = globals s /\
  upload (handleSearch v o s) = upload s /\
  chips (handleSearch v o s) = chips s /\
  queryInput_value (search (handleSearch v o s)) = queryInput_value (search s).
Proof.
  assert (H : search_frame (handleSearch v o s) = search_frame s).
  { unfold handleSearch, handleSearch_begin.
    destruct (String.eqb (trim (queryInput_value (search s))) ""); [reflexivity |].
    rewrite handleSearch_resume_frame. reflexivity. }
  unfold search_frame in H. injection H as Hg Hu Hc Hq. repeat split; assumption.
Qed.

(** X11: the health check changes no module-level variable and nothing
    that is displayed in the upload and search panels, whatever the
    request comes to; it shows a toast exactly when the network fails. *)
Theorem checkBackendHealth_frame (v : version) (o : fetch_outcome) (s : State) :
  let s' := checkBackendHealth v o s in
  page s' = page s /\
  (toasts (fx s') <> toasts (fx s) <-> exists msg, o = NetworkFailure msg).
Proof.
  intros s'. subst s'. destruct o as [msg | r].
  - split; [reflexivity |]. split; [intros _; exists msg; reflexivity |].
    intros _ H. cbn in H. apply (f_equal length) in H.
    rewrite length_app in H. cbn in H. lia.
  - split.
    + unfold checkBackendHealth, checkBackendHealth_try, exec, try_catch, bind,
        await_fetch, ret, modify. cbn. destruct (ok r); reflexivity.
    + split; [| intros [msg Hm]; discriminate Hm].
      intros H. exfalso. apply H.
      unfold checkBackendHealth, checkBackendHealth_try, exec, try_catch, bind,
        await_fetch, ret, modify. cbn. destruct (ok r); reflexivity.
Qed.

(** *** The upload button and the reset timer *)

(** X1: in a run of [handleUpload] with a file selected, the button is
    disabled and marked loading, and the upload result emptied, for as
    long as the request is out; once the run ends the button is enabled
    and no longer loading, whatever the request came to. *)
Theorem handleUpload_button_released (v : version) (o : fetch_outcome) (s : State)
    (f : File) :
  selectedFile (globals s) = Some f ->
  let s1 := fst (handleUpload_begin v s) in
  let s' := handleUpload v o s in
  (uploadBtn_disabled (upload s1) = true /\ uploadBtn_loading (upload s1) = true /\
   uploadResult_innerHTML (upload s1) = "") /\
  (uploadBtn_disabled (upload s') = false /\ uploadBtn_loading (upload s') = false).
Proof.
  intros Hf s1 s'. subst s1 s'. unfold handleUpload, handleUpload_begin. rewrite Hf.
  split; [repeat split |].
  unfold handleUpload_resume, exec, try_finally. cbn [fst snd].
  match goal with
  | |- context [try_catch ?b ?h ?s0] => destruct (try_catch b h s0) as [s2 res]
  end.
  split; reflexivity.
Qed.

Lemma handleUpload_requests v o s f :
  selectedFile (globals s) = Some f ->
  requests (fx (handleUpload v o s)) = requests (fx s) ++ [upload_request v f s].
Proof.
  intros Hf. unfold handleUpload, handleUpload_begin. rewrite Hf.
  rewrite handleUpload_resume_requests. reflexivity.
Qed.

Lemma displayUploadResult_timers v data s :
  timers (fx (fst (displayUploadResult v data s))) = timers (fx s).
Proof.
  revert s. change (keeps (fun s => timers (fx s)) (displayUploadResult v data)).
  unfold displayUploadResult, displayUploadResult_three, displayUploadResult_four.
  frame.
Qed.

Lemma displayUploadResult_throws v data s :
  upload_renders v data = false ->
  exists e, snd (displayUploadResult v data s) = Throw e.
Proof.
  unfold upload_renders. intros H.
  destruct (nullish data) eqn:Hd.
  { destruct data; try discriminate Hd; destruct v; eexists; reflexivity. }
  cbn [negb andb] in H.
  destruct v; unfold displayUploadResult, displayUploadResult_four,
    displayUploadResult_three, bind, lift, modify; cbn;
    rewrite !(get_field data _ Hd); unfold to_string;
    repeat match goal with
    | |- context [convertible ?x] =>
      destruct (convertible x); cbn [andb] in H |- *; [| eexists; reflexivity]
    end; discriminate H.
Qed.

Lemma handleUpload_success_timers v o s f :
  selectedFile (globals s) = Some f -> upload_succeeds v o = true ->
  timers (fx (handleUpload v o s))
  = timers (fx s)
    ++ [{| delay := 3000; action := FadeToast (length (toasts (fx s))) |}; reset_timer].
Proof.
  intros Hf Hs. destruct o as [msg | r]; [discriminate Hs |].
  cbn in Hs. apply andb_true_iff in Hs as [Hok Hb].
  destruct (body r) as [data | msg] eqn:Hbody; [| discriminate Hb].
  destruct (handleUpload_ok_run v r data f s Hf Hok Hbody Hb) as [-> _].
  cbn. rewrite displayUploadResult_timers.
  unfold handleUpload_begin. rewrite Hf. cbn. rewrite <- app_assoc. reflexivity.
Qed.

Lemma toast_timer_fade (i : nat) : toast_timer {| delay := 3000; action := FadeToast i |}.
Proof. split; [reflexivity | exists i; reflexivity]. Qed.

Lemma handleUpload_failure_timers v o s f :
  selectedFile (globals s) = Some f -> upload_succeeds v o = false ->
  exists armed,
    timers (fx (handleUpload v o s)) = timers (fx s) ++ armed /\
    Forall toast_timer armed.
Proof.
  intros Hf Hs. destruct o as [msg | r].
  - unfold handleUpload, handleUpload_begin. rewrite Hf.
    eexists. split; [reflexivity |]. repeat constructor; apply toast_timer_fade.
  - destruct (ok r) eqn:Hok.
    + unfold handleUpload, handleUpload_begin. rewrite Hf.
      unfold handleUpload_resume, exec, try_finally, try_catch, handleUpload_try,
        handleUpload_catch, bind, await_fetch, await_json, ret, modify, throw.
      cbn in Hs. rewrite Hok in Hs. cbn. rewrite Hok.
      destruct (body r) as [data | msg].
      * cbn in Hs |- *.
        match goal with
        | |- context [displayUploadResult v data ?s0] =>
          destruct (displayUploadResult_throws v data s0 Hs) as [e He];
          pose proof (displayUploadResult_timers v data s0) as Ht;
          destruct (displayUploadResult v data s0) as [s1 res]
        end.
        cbn in He, Ht. subst res. cbn. rewrite Ht. cbn.
        eexists. split; [rewrite <- app_assoc; reflexivity |].
        repeat constructor; apply toast_timer_fade.
      * cbn. eexists. split; [reflexivity |].
        repeat constructor; apply toast_timer_fade.
    + rewrite (handleUpload_not_ok_run v r f s Hf Hok).
      unfold handleUpload_begin. rewrite Hf.
      eexists. split; [reflexivity |]. repeat constructor; apply toast_timer_fade.
Qed.

Lemma toast_timer_not_reset : ~ toast_timer reset_timer.
Proof. intros [H _]. discriminate H. Qed.

(** X2: a run of [handleUpload] with a file selected arms the timer that
    resets the upload zone exactly when the request comes to a 2xx
    response whose body is JSON that [displayUploadResult] renders
    without an exception; in every other case (network failure, other
    status, a body that is not JSON or is [null], a field the template
    reads that has no primitive value) only toast timers are armed. *)
Theorem handleUpload_arms_reset_iff (v : version) (o : fetch_outcome) (s : State)
    (f : File) :
  selectedFile (globals s) = Some f ->
  exists armed,
    timers (fx (handleUpload v o s)) = timers (fx s) ++ armed /\
    (reset_timer ∈ armed <-> upload_succeeds v o = true) /\
    (upload_succeeds v o = false -> Forall toast_timer armed).
Proof.
  intros Hf. destruct (upload_succeeds v o) eqn:Hs.
  - eexists. split; [apply (handleUpload_success_timers v o s f Hf Hs) |].
    split; [| discriminate].
    split; [reflexivity |]. intros _. apply elem_of_cons. right.
    apply list_elem_of_singleton. reflexivity.
  - destruct (handleUpload_failure_timers v o s f Hf Hs) as (armed & Ht & Hno).
    exists armed. split; [exact Ht |]. split; [| intros _; exact Hno].
    split; [| discriminate].
    intros Hin. rewrite Forall_forall in Hno.
    destruct (toast_timer_not_reset (Hno _ Hin)).
Qed.

(** X3: until that timer fires the file stays selected, so a second
    click on the upload button sends the same request again, whatever
    the first request came to. *)
Theorem handleUpload_twice_sends_twice (v : version) (o1 o2 : fetch_outcome)
    (s : State) (f : File) :
  selectedFile (globals s) = Some f ->
  requests (fx (handleUpload v o2 (handleUpload v o1 s)))
  = requests (fx s) ++ [upload_request v f s; upload_request v f s].
Proof.
  intros Hf. pose proof (handleUpload_keeps_frame v o1 s) as Hframe.
  unfold upload_frame in Hframe.
  injection Hframe as Hg _ _ _ _ _ _ Hdoc.
  rewrite (handleUpload_requests v o2 _ f) by (rewrite Hg; exact Hf).
  rewrite (handleUpload_requests v o1 s f Hf), <- app_assoc.
  unfold upload_request. rewrite Hg, Hdoc. reflexivity.
Qed.

Lemma handleFileSelect_timers v file s :
  exists armed, timers (fx (handleFileSelect v file s)) = timers (fx s) ++ armed.
Proof.
  unfold handleFileSelect. destruct file as [f |].
  - destruct (negb _); [eexists; reflexivity |].
    destruct (_ <? _)%N; eexists; reflexivity.
  - exists []. rewrite app_nil_r. reflexivity.
Qed.

(** X4: after an upload that succeeds (a 2xx response whose body
    [displayUploadResult] renders without an exception), the timer it
    armed clears, when it fires, whatever file is selected at that
    moment, also one chosen after the upload finished, and puts the
    prompt back on the upload zone; the upload result stays on display,
    and a click on the upload button then sends nothing. *)
Theorem reset_clears_later_selection (v : version) (o o' : fetch_outcome) (s : State)
    (f : File) (file : option File) :
  selectedFile (globals s) = Some f ->
  upload_succeeds v o = true ->
  let s1 := handleUpload v o s in
  let s2 := handleFileSelect v file s1 in
  let k := S (length (timers (fx s))) in
  let s3 := fire_timer k s2 in
  timers (fx s2) !! k = Some reset_timer /\
  selectedFile (globals s3) = None /\
  uploadText (upload s3) = "Drag & drop PDF here" /\
  uploadSubtext (upload s3) = "or click to browse" /\
  fileInput_value (upload s3) = "" /\
  uploadResult_innerHTML (upload s3) = uploadResult_innerHTML (upload s1) /\
  requests (fx (handleUpload v o' s3)) = requests (fx s3).
Proof.
  intros Hf Hs s1 s2 k s3.
  assert (Hk : timers (fx s2) !! k = Some reset_timer).
  { subst s2 k. destruct (handleFileSelect_timers v file s1) as [armed ->].
    subst s1. rewrite (handleUpload_success_timers v o s f Hf Hs).
    apply lookup_app_l_Some.
    change (?l ++ [?a; ?b]) with (l ++ [a] ++ [b]). rewrite app_assoc.
    apply list_lookup_middle. rewrite length_app. cbn. lia. }
  split; [exact Hk |].
  assert (Hs3 : s3 = run_timer ResetUploadZone
                       (with_fx (fun e => set_timers (delete k (timers e)) e) s2)).
  { subst s3. unfold fire_timer. rewrite Hk. reflexivity. }
  rewrite Hs3. repeat (split; [reflexivity |]). split.
  - subst s2. unfold handleFileSelect. destruct file as [g |]; [| reflexivity].
    destruct (negb _); [reflexivity |]. destruct (_ <? _)%N; reflexivity.
  - reflexivity.
Qed.

(** *** The life of a toast *)

Lemma alter_last {A} (g : A -> A) (l : list A) (x : A) :
  alter g (length l) (l ++ [x]) = l ++ [g x].
Proof.
  rewrite <- (Nat.add_0_r (length l)) at 1. rewrite alter_app_r. reflexivity.
Qed.

(** X5: a toast is shown with a timer of 3000 ms; when that fires the
    toast gets its closing animation and a timer of 300 ms, and when
    that fires the toast is taken off the page.  After the two the timer
    queue is what it was before the toast, no other toast was touched
    and nothing else on the page changed. *)
Theorem toast_shown_then_removed (v : version) (message type : string) (s : State) :
  let s1 := showToast v message type s in
  let k := length (timers (fx s)) in
  let s2 := fire_timer k s1 in
  let s3 := fire_timer k s2 in
  timers (fx s1) !! k
  = Some {| delay := 3000; action := FadeToast (length (toasts (fx s))) |} /\
  timers (fx s2) !! k
  = Some {| delay := 300; action := RemoveToast (length (toasts (fx s))) |} /\
  toasts (fx s2)
  = toasts (fx s)
    ++ [set_toast_animation "toastSlide 0.3s ease reverse" (new_toast v message type)] /\
  toasts (fx s3)
  = toasts (fx s)
    ++ [detach_toast
          (set_toast_animation "toastSlide 0.3s ease reverse"
             (new_toast v message type))] /\
  timers (fx s3) = timers (fx s) /\
  page s3 = page s /\ requests (fx s3) = requests (fx s) /\
  console (fx s3) = console (fx s).
Proof.
  intros s1 k s2 s3.
  assert (H1 : timers (fx s1) !! k
               = Some {| delay := 3000; action := FadeToast (length (toasts (fx s))) |}).
  { subst s1 k. cbn. apply list_lookup_middle. reflexivity. }
  assert (E2 : s2 = setTimeout 300 (RemoveToast (length (toasts (fx s))))
                      (with_fx (fun e =>
                         set_toasts (alter (set_toast_animation "toastSlide 0.3s ease reverse")
                                       (length (toasts (fx s))) (toasts e)) e)
                         (with_fx (fun e => set_timers (delete k (timers e)) e) s1))).
  { subst s2. unfold fire_timer. rewrite H1. reflexivity. }
  assert (T2 : timers (fx s2)
               = timers (fx s)
                 ++ [{| delay := 300; action := RemoveToast (length (toasts (fx s))) |}]).
  { rewrite E2. subst s1 k. cbn. rewrite delete_middle, app_nil_r. reflexivity. }
  assert (H2 : timers (fx s2) !! k
               = Some {| delay := 300; action := RemoveToast (length (toasts (fx s))) |}).
  { rewrite T2. apply list_lookup_middle. reflexivity. }
  assert (A2 : toasts (fx s2)
               = toasts (fx s)
                 ++ [set_toast_animation "toastSlide 0.3s ease reverse"
                       (new_toast v message type)]).
  { rewrite E2. subst s1. cbn. apply alter_last. }
  assert (E3 : s3 = with_fx (fun e =>
                      set_toasts (alter detach_toast (length (toasts (fx s))) (toasts e)) e)
                      (with_fx (fun e => set_timers (delete k (timers e)) e) s2)).
  { subst s3. unfold fire_timer. rewrite H2. reflexivity. }
  split; [exact H1 |]. split; [exact H2 |]. split; [exact A2 |].
  rewrite E3. cbn. rewrite A2, T2. subst k.
  rewrite alter_last, delete_middle, app_nil_r.
  split; [reflexivity |]. split; [reflexivity |].
  rewrite E2. subst s1. repeat split.
Qed.

(** *** Chips *)

Lemma chip_click_chips i chip s :
  chips s !! i = Some chip ->
  chips (chip_click i s)
  = alter (set_chip_active true) i
      ((fun c => if chip_below (chip_parent chip) c
                 then set_chip_active false c else c) <$> chips s).
Proof.
  intros Hi. unfold chip_click. rewrite Hi.
  destruct (String.eqb _ "search"); reflexivity.
Qed.

Lemma chip_below_parent (c : Chip) : chip_below (chip_parent c) c = true.
Proof. unfold chip_below. rewrite Nat.eqb_refl. reflexivity. Qed.

(** X6: after a click on a chip, among the chips anywhere below the
    element the clicked chip sits in (directly in it or nested deeper,
    as [querySelectorAll] finds them) the clicked one is the only active
    one; the chips that are not below that element keep their state; no
    chip is added or removed and none changes its role, target or
    place. *)
Theorem chip_click_one_active (i : nat) (chip : Chip) (s : State) :
  chips s !! i = Some chip ->
  let s' := chip_click i s in
  length (chips s') = length (chips s) /\
  forall j c, chips s !! j = Some c ->
    exists c', chips s' !! j = Some c' /\
      chip_role c' = chip_role c /\ chip_target c' = chip_target c /\
      chip_parent c' = chip_parent c /\ chip_ancestors c' = chip_ancestors c /\
      (chip_below (chip_parent chip) c = true -> (chip_active c' = true <-> j = i)) /\
      (chip_below (chip_parent chip) c = false -> chip_active c' = chip_active c).
Proof.
  intros Hi s'. subst s'. rewrite (chip_click_chips i chip s Hi). split.
  - rewrite length_alter, length_fmap. reflexivity.
  - intros j c Hj. destruct (decide (i = j)) as [<- | Hne].
    + rewrite list_lookup_alter_eq, list_lookup_fmap, Hj. cbn.
      assert (c = chip) as -> by congruence.
      rewrite chip_below_parent. eexists. split; [reflexivity |]. cbn.
      repeat split; intros; congruence.
    + rewrite (list_lookup_alter_ne _ _ i j Hne), list_lookup_fmap, Hj. cbn.
      destruct (chip_below (chip_parent chip) c) eqn:Hp;
        (eexists; split; [reflexivity |]); cbn.
      * repeat split; congruence.
      * repeat split; congruence.
Qed.

Lemma chip_click_rest i s :
  upload (chip_click i s) = upload s /\ search (chip_click i s) = search s /\
  fx (chip_click i s) = fx s /\
  selectedFile (globals (chip_click i s)) = selectedFile (globals s).
Proof.
  unfold chip_click. destruct (chips s !! i) as [chip |]; [| repeat split].
  destruct (String.eqb _ "search"); repeat split.
Qed.

Lemma chip_click_role i chip s :
  chips s !! i = Some chip ->
  (chip_target chip = Some "search" ->
   searchRole (globals (chip_click i s)) = chip_role chip) /\
  (chip_target chip <> Some "search" ->
   uploadRole (globals (chip_click i s)) = chip_role chip).
Proof.
  intros Hi. unfold chip_click. rewrite Hi. split.
  - intros ->. reflexivity.
  - intros Hn. destruct (chip_target chip) as [t |]; [| reflexivity].
    unfold or_string. destruct (String.eqb_spec t "") as [-> | Ht]; [reflexivity |].
    destruct (String.eqb_spec t "search") as [-> | _]; [contradiction | reflexivity].
Qed.

(** X7: the role that goes out with a request is the role of the chip
    clicked last for that panel: after a click on a search chip the
    query carries that chip's [data-role], after a click on any other
    chip the upload form does. *)
Theorem clicked_role_is_sent (v : version) (o : fetch_outcome) (i : nat) (chip : Chip)
    (s : State) :
  chips s !! i = Some chip ->
  (forall query, chip_target chip = Some "search" ->
     trim (queryInput_value (search s)) = query -> query <> "" ->
     requests (fx (handleSearch v o (chip_click i s)))
     = requests (fx s)
       ++ [ {| req_url := API_BASE v +:+ "/api/query";
               req_method := "POST";
               req_headers := [("Content-Type", "application/json")];
               req_body := BodyText <$>
                 JSON_stringify
                   (VObj [("query", VStr query);
                          ("role", role_value (chip_role chip))]) |} ]) /\
  (forall f, chip_target chip <> Some "search" ->
     selectedFile (globals s) = Some f ->
     requests (fx (handleUpload v o (chip_click i s)))
     = requests (fx s)
       ++ [ {| req_url := API_BASE v +:+ "/api/upload";
               req_method := "POST";
               req_headers := [];
               req_body := Some (BodyForm
                 [("file", FormFile f);
                  ("role", form_string (chip_role chip));
                  ("doc_type", FormString (docTypeSelect_value (upload s)))]) |} ]).
Proof.
  intros Hi. destruct (chip_click_rest i s) as (Hu & Hse & Hfx & Hfile).
  destruct (chip_click_role i chip s Hi) as [Hsr Hur]. split.
  - intros query Ht Hq Hne.
    assert (Hq' : trim (queryInput_value (search (chip_click i s))) <> "")
      by (rewrite Hse, Hq; exact Hne).
    destruct (handleSearch_run v o (chip_click i s) Hq') as [-> ->].
    rewrite handleSearch_resume_requests. cbn. unfold query_request.
    rewrite Hsr by exact Ht. rewrite Hse, Hfx, Hq. reflexivity.
  - intros f Ht Hf.
    rewrite (handleUpload_requests v o (chip_click i s) f) by (rewrite Hfile; exact Hf).
    unfold upload_request. rewrite Hur by exact Ht. rewrite Hu, Hfx. reflexivity.
Qed.

(** *** The Enter key *)

(** X8: a key pressed in the query input sends a query exactly when it
    is Enter, Shift is not held and the input does not trim to the empty
    string; any other key, and Enter with Shift, changes nothing at
    all. *)
Theorem on_keypress_searches_iff (v : version) (key : string) (shiftKey : bool)
    (o : fetch_outcome) (s : State) :
  (requests (fx (on_keypress v key shiftKey o s)) <> requests (fx s) <->
   key = "Enter" /\ shiftKey = false /\ trim (queryInput_value (search s)) <> "") /\
  (key <> "Enter" \/ shiftKey = true -> on_keypress v key shiftKey o s = s).
Proof.
  unfold on_keypress.
  destruct (String.eqb_spec key "Enter") as [-> | Hk]; destruct shiftKey; cbn;
    try (split; [split; [intros H; contradiction | intros (? & ? & ?); congruence]
                | reflexivity]).
  split; [| intros [H | H]; congruence].
  destruct (String.eqb_spec (trim (queryInput_value (search s))) "") as [He | Hne].
  - split; [| intros (_ & _ & H); contradiction].
    intros H. exfalso. apply H.
    unfold handleSearch, handleSearch_begin. rewrite He. reflexivity.
  - split; [intros _; repeat split; exact Hne |]. intros _.
    destruct (handleSearch_run v o s Hne) as [-> ->].
    rewrite handleSearch_resume_requests. cbn. intros H.
    apply (f_equal length) in H. rewrite length_app in H. cbn in H. lia.
Qed.

(** *** Choosing files *)

Lemma handleFileSelect_acceptable v f s :
  acceptable f ->
  handleFileSelect v (Some f) s
  = showToast v ("Selected: " +:+ file_name f) "success"
      (with_upload
         (set_upload_texts (file_name f) (size_in_MiB_fixed2 (file_size f) +:+ " MB"))
         (with_globals (set_selectedFile (Some f)) s)).
Proof.
  intros Ha. apply acceptable_dec in Ha as [Ht Hs].
  unfold handleFileSelect. rewrite Ht, Hs. reflexivity.
Qed.

Lemma handleFileSelect_unacceptable v f s :
  ~ acceptable f ->
  exists message, handleFileSelect v (Some f) s = showToast v message "error" s.
Proof.
  intros Hn. rewrite acceptable_dec in Hn. unfold handleFileSelect.
  destruct (negb _) eqn:Ht; [eexists; reflexivity |].
  destruct (_ <? _)%N eqn:Hs; [eexists; reflexivity | tauto].
Qed.

(** X12: the pending upload is the last acceptable file chosen.  A file
    that is refused after one was accepted leaves the accepted one
    selected, with its name and size still on the upload zone, and it is
    the one an upload then sends; an acceptable file chosen after
    another replaces it. *)
Theorem last_acceptable_file_is_pending (v : version) (o : fetch_outcome)
    (f1 f2 : File) (s : State) :
  acceptable f1 ->
  let s1 := handleFileSelect v (Some f1) s in
  let s2 := handleFileSelect v (Some f2) s1 in
  (~ acceptable f2 ->
   selectedFile (globals s2) = Some f1 /\
   uploadText (upload s2) = file_name f1 /\
   uploadSubtext (upload s2) = size_in_MiB_fixed2 (file_size f1) +:+ " MB" /\
   requests (fx (handleUpload v o s2)) = requests (fx s) ++ [upload_request v f1 s]) /\
  (acceptable f2 ->
   selectedFile (globals s2) = Some f2 /\
   uploadText (upload s2) = file_name f2 /\
   requests (fx (handleUpload v o s2)) = requests (fx s) ++ [upload_request v f2 s]).
Proof.
  intros H1 s1 s2. subst s1 s2. rewrite (handleFileSelect_acceptable v f1 s H1). split.
  - intros Hn.
    destruct (handleFileSelect_unacceptable v f2
                (showToast v ("Selected: " +:+ file_name f1) "success"
                   (with_upload
                      (set_upload_texts (file_name f1)
                         (size_in_MiB_fixed2 (file_size f1) +:+ " MB"))
                      (with_globals (set_selectedFile (Some f1)) s))) Hn)
      as [message ->].
    repeat (split; [reflexivity |]).
    rewrite (handleUpload_requests v o _ f1) by reflexivity. reflexivity.
  - intros H2. rewrite (handleFileSelect_acceptable v f2 _ H2).
    repeat (split; [reflexivity |]).
    rewrite (handleUpload_requests v o _ f2) by reflexivity. reflexivity.
Qed.

(** X13: the size shown for an accepted file is its size in MiB rounded
    to the nearest hundredth, the upper one on a tie, and is never more
    than 20.00. *)
Theorem shown_size_is_rounded (v : version) (f : File) (s : State) :
  acceptable f ->
  let n := hundredths_of_MiB (file_size f) in
  uploadSubtext (upload (handleFileSelect v (Some f) s)) = fixed2 n +:+ " MB" /\
  (n <= 2000)%N /\
  (2097152 * n <= 200 * file_size f + 1048576)%N /\
  (200 * file_size f < 2097152 * n + 1048576)%N.
Proof.
  intros Ha n. rewrite (handleFileSelect_acceptable v f s Ha).
  split; [reflexivity |]. destruct Ha as [_ Hsize]. subst n. unfold hundredths_of_MiB.
  assert (Hdiv := N.div_mod (200 * file_size f + 1048576) 2097152 ltac:(discriminate)).
  assert (Hmod := N.mod_lt (200 * file_size f + 1048576) 2097152 ltac:(discriminate)).
  set (q := ((200 * file_size f + 1048576) / 2097152)%N) in *.
  set (r := ((200 * file_size f + 1048576) mod 2097152)%N) in *.
  clearbody q r. lia.
Qed.

(** X14: a drop never leaves the drag highlight on the upload zone, and
    apart from that does exactly what choosing the same file in the file
    dialog does, also when nothing was dropped or the file is
    refused. *)
Theorem on_drop_is_change (v : version) (file : option File) (s : State) :
  on_drop v file s = with_upload (set_dragover false) (on_file_change v file s) /\
  uploadZone_dragover (upload (on_drop v file s)) = false.
Proof.
  assert (H : on_drop v file s
              = with_upload (set_dragover false) (on_file_change v file s)).
  { unfold on_drop, on_file_change, handleFileSelect.
    destruct file as [f |]; [| reflexivity].
    destruct (negb _); [reflexivity |]. destruct (_ <? _)%N; reflexivity. }
  split; [exact H | rewrite H; reflexivity].
Qed.

(** *** What the answer shows *)

(** The text that assigning a value with a primitive value to
    [textContent] leaves in the element. *)
Lemma dom_text_of (x : value) :
  convertible x = true ->
  dom_text x = Ok (match x with VUndefined | VNull => "" | _ => string_of x end).
Proof.
  intros H. unfold dom_text.
  destruct x; try reflexivity; apply to_string_convertible, H.
Qed.

Lemma handleSearch_resume_ok v r data text markup s :
  ok r = true -> body r = BodyJson data -> nullish data = false ->
  dom_text (field data "answer") = Ok text ->
  sources_view v (field data "sources") = Ok markup ->
  handleSearch_resume v (Responded r) s
  = with_search
      (fun x => set_sourcesList_innerHTML markup
         (set_answerText text
            (set_answerContainer_display "block"
               (set_loadingState_display "none" x)))) s.
Proof.
  intros Hok Hb Hd Ha Hv.
  unfold handleSearch_resume, exec, try_catch.
  rewrite (handleSearch_try_ok v r data _ Hok Hb).
  rewrite (displayAnswer_renders v data text markup _ Hd Ha Hv). reflexivity.
Qed.

(** X15: a 2xx response whose JSON has an [answer] with a primitive
    value and no [sources], or [sources] falsy or an empty list, is no
    error.  In whatever state [s_mid] the page is when the response
    arrives, the continuation of [handleSearch] displays the answer with
    the no-sources line in place of the list, hides the loading state
    and shows no toast; an [answer] that is absent or [null] is shown
    as no text, any other as the string it converts to (a string as
    itself). *)
Theorem answer_without_sources (v : version) (r : HttpResponse) (data : value)
    (s_mid : State) :
  ok r = true -> body r = BodyJson data -> nullish data = false ->
  convertible (field data "answer") = true ->
  truthy (field data "sources") = false \/ field data "sources" = VArr [] ->
  let s' := handleSearch_resume v (Responded r) s_mid in
  visible (answerContainer_display (search s')) /\
  hidden (loadingState_display (search s')) /\
  sourcesList_innerHTML (search s') = no_sources_markup v /\
  toasts (fx s') = toasts (fx s_mid) /\
  answerText_textContent (search s')
  = match field data "answer" with
    | VUndefined | VNull => ""
    | VStr a => a
    | answer => string_of answer
    end.
Proof.
  intros Hok Hb Hd Ha Hs s'. subst s'.
  assert (Hv : sources_view v (field data "sources") = Ok (no_sources_markup v)).
  { unfold sources_view. destruct Hs as [-> | ->]; reflexivity. }
  rewrite (handleSearch_resume_ok v r data _ _ s_mid Hok Hb Hd (dom_text_of _ Ha) Hv).
  repeat (split; [reflexivity |]). cbn.
  destruct (field data "answer"); reflexivity.
Qed.

Lemma Shows_append_r (needle hay post : string) :
  Shows needle hay -> Shows needle (hay +:+ post).
Proof.
  intros (a & b & ->). exists a, (b +:+ post). rewrite !append_assoc. reflexivity.
Qed.

Lemma render_source_shown src :
  source_renders src = true ->
  exists markup, render_source src = Ok markup /\ source_shown src markup.
Proof.
  intros Hr. rewrite (render_source_ok src Hr).
  eexists. split; [reflexivity |]. unfold source_shown, source_item_markup.
  split; [shows | split; [shows |]].
  intros ->. cbv beta iota. shows.
Qed.

Lemma render_sources_shown items markup :
  forallb source_renders items = true ->
  render_sources items = Ok markup ->
  forall src, src ∈ items -> source_shown src markup.
Proof.
  revert markup. induction items as [| x items IH]; intros markup Hall Hr src Hin.
  - apply elem_of_nil in Hin. contradiction.
  - cbn [forallb] in Hall. apply andb_true_iff in Hall as [Hx Hall].
    destruct (render_source_shown x Hx) as (first & Hfirst & Hshown).
    cbn [render_sources] in Hr. rewrite Hfirst in Hr.
    destruct (render_sources items) as [others | e]; [| discriminate Hr].
    injection Hr as <-. apply elem_of_cons in Hin as [-> | Hin].
    + destruct Hshown as (H1 & H2 & H3).
      repeat split; [| | intros Hp]; apply Shows_append_r; auto.
    + destruct (IH others Hall eq_refl src Hin) as (H1 & H2 & H3).
      repeat split; [| | intros Hp]; apply Shows_append_l; auto.
Qed.

(** X16: for a 2xx response whose [answer] has a primitive value and
    whose [sources] is a list of entries that render (none is [null],
    and the [filename], the [similarity] and a truthy [page] of each
    have primitive values), the continuation of [handleSearch], in
    whatever state [s_mid] the response finds the page, fills the
    sources list with every entry: its file name, its similarity as a
    percentage, and its page when it has one; no toast is shown. *)
Theorem every_source_is_listed (v : version) (r : HttpResponse) (data : value)
    (items : list value) (s_mid : State) :
  ok r = true -> body r = BodyJson data -> nullish data = false ->
  convertible (field data "answer") = true ->
  field data "sources" = VArr items -> items <> [] ->
  forallb source_renders items = true ->
  let s' := handleSearch_resume v (Responded r) s_mid in
  toasts (fx s') = toasts (fx s_mid) /\
  visible (answerContainer_display (search s')) /\
  forall src, src ∈ items -> source_shown src (sourcesList_innerHTML (search s')).
Proof.
  intros Hok Hb Hd Ha Hs Hne Hall s'. subst s'.
  destruct (render_sources_ok items Hall) as [markup Hr].
  assert (Hv : sources_view v (field data "sources") = Ok markup).
  { unfold sources_view. rewrite Hs. cbn.
    destruct (decide (items = [])) as [He | _]; [contradiction |].
    rewrite bool_decide_eq_false_2 by exact Hne. exact Hr. }
  rewrite (handleSearch_resume_ok v r data _ markup s_mid Hok Hb Hd (dom_text_of _ Ha) Hv).
  split; [reflexivity |]. split; [reflexivity |].
  cbn. apply render_sources_shown; assumption.
Qed.

(** *** Requests that fail, responses without a usable body *)

(** X17: when the request itself fails, the toast carries the failure's
    message, or the fallback text of the handler when that message is
    empty, and the error is logged.  An upload leaves its result empty.
    The continuation of a search, in whatever state [s_mid] the failure
    finds the page, hides the loading state and leaves the answer
    container, the answer text and the sources list as they were at
    that moment. *)
Theorem network_failure_toast (v : version) (msg : string) (s s_mid : State) :
  (forall f, selectedFile (globals s) = Some f ->
     let s' := handleUpload v (NetworkFailure msg) s in
     toasts (fx s')
     = toasts (fx s) ++ [new_toast v (or_string msg (msg_upload_fallback v)) "error"] /\
     logged_error "Upload error:" msg s s' /\
     uploadResult_innerHTML (upload s') = "") /\
  (let s' := handleSearch_resume v (NetworkFailure msg) s_mid in
   toasts (fx s')
   = toasts (fx s_mid) ++ [new_toast v (or_string msg (msg_search_fallback v)) "error"] /\
   logged_error "Search error:" msg s_mid s' /\
   hidden (loadingState_display (search s')) /\
   answerContainer_display (search s') = answerContainer_display (search s_mid) /\
   answerText_textContent (search s') = answerText_textContent (search s_mid) /\
   sourcesList_innerHTML (search s') = sourcesList_innerHTML (search s_mid)).
Proof.
  split.
  - intros f Hf s'. subst s'. unfold handleUpload, handleUpload_begin. rewrite Hf.
    repeat split.
  - repeat split.
Qed.

(** X18: a 2xx upload response without a usable body.  When the body is
    not JSON, the only toast is an error toast with the parser's
    message.  When the body is the JSON [null], the success toast is
    shown first and then an error toast, for the exception raised while
    reading the fields of [null].  In both cases the upload result is
    left empty and the file stays selected. *)
Theorem upload_ok_without_body (v : version) (r : HttpResponse) (f : File) (s : State) :
  selectedFile (globals s) = Some f -> ok r = true ->
  let s' := handleUpload v (Responded r) s in
  (forall msg, body r = BodyInvalid msg ->
     toasts (fx s')
     = toasts (fx s) ++ [new_toast v (or_string msg (msg_upload_fallback v)) "error"]) /\
  (body r = BodyJson VNull ->
     toasts (fx s')
     = toasts (fx s)
       ++ [new_toast v (msg_uploaded v) "success";
           new_toast v (or_string (msg_read_of_null "filename") (msg_upload_fallback v))
             "error"]) /\
  ((exists msg, body r = BodyInvalid msg) \/ body r = BodyJson VNull ->
     uploadResult_innerHTML (upload s') = "" /\
     selectedFile (globals s') = Some f).
Proof.
  intros Hf Hok s'. subst s'. unfold handleUpload, handleUpload_begin. rewrite Hf.
  unfold handleUpload_resume, exec, try_finally, try_catch, handleUpload_try,
    handleUpload_catch, bind, await_fetch, await_json, ret, modify, throw.
  cbn. rewrite Hok. split; [| split].
  - intros msg ->. reflexivity.
  - intros ->. destruct v; cbn; rewrite <- app_assoc; reflexivity.
  - intros [[msg ->] | ->]; [split; [reflexivity | exact Hf] |].
    destruct v; cbn; (split; [reflexivity | exact Hf]).
Qed.

(** X19: choosing a file never sends anything and never writes to the
    console; it changes neither the roles nor the search panel nor any
    chip, and in the upload panel nothing but the two texts of the
    upload zone. *)
Theorem handleFileSelect_frame (v : version) (file : option File) (s : State) :
  let s' := handleFileSelect v file s in
  requests (fx s') = requests (fx s) /\ console (fx s') = console (fx s) /\
  uploadRole (globals s') = uploadRole (globals s) /\
  searchRole (globals s') = searchRole (globals s) /\
  search s' = search s /\ chips s' = chips s /\
  uploadZone_dragover (upload s') = uploadZone_dragover (upload s) /\
  fileInput_value (upload s') = fileInput_value (upload s) /\
  uploadBtn_disabled (upload s') = uploadBtn_disabled (upload s) /\
  uploadBtn_loading (upload s') = uploadBtn_loading (upload s) /\
  uploadResult_innerHTML (upload s') = uploadResult_innerHTML (upload s) /\
  uploadResult_display (upload s') = uploadResult_display (upload s) /\
  docTypeSelect_value (upload s') = docTypeSelect_value (upload s).
Proof.
  intros s'. subst s'. unfold handleFileSelect. destruct file as [f |]; [| repeat split].
  destruct (negb _); [repeat split |]. destruct (_ <? _)%N; repeat split.
Qed.

End Properties.

(** * Properties of the retrieval core *)

Module CoreProperties.
Import Core.

Section Retrieval.
Context {vector score : Type}.
Variable similarity : vector -> vector -> score.
Variable score_ltb : score -> score -> bool.
Variable embed : string -> option vector.

#[local] Abbreviation Chunk := (@Chunk vector).
#[local] Abbreviation SearchResult := (@SearchResult vector score).

Lemma Forall_place (P : SearchResult -> Prop) r ranked :
  P r -> Forall P ranked -> Forall P (place score_ltb r ranked).
Proof.
  intros Hr. induction 1 as [| x rest Hx Hrest IH]; cbn.
  - repeat constructor. exact Hr.
  - destruct (score_ltb _ _); repeat constructor; assumption.
Qed.

Lemma Forall_rank (P : SearchResult -> Prop) results :
  Forall P results -> Forall P (rank score_ltb results).
Proof.
  induction 1 as [| r rest Hr Hrest IH]; cbn.
  - constructor.
  - apply Forall_place; assumption.
Qed.

Lemma search_allowed_only query_vector k (tags : gset string) (index : list Chunk) :
  Forall (fun r => access_tag (chunk_reference r) ∈ tags)
    (search similarity score_ltb query_vector k tags index).
Proof.
  unfold search. apply Forall_take, Forall_rank, Forall_fmap, Forall_forall.
  intros c Hc. apply list_elem_of_filter in Hc as [Htag _]. exact Htag.
Qed.

Lemma filter_allowed_idem (tags : gset string) (index : list Chunk) :
  filter (fun c => access_tag c ∈ tags) (filter (fun c => access_tag c ∈ tags) index)
  = filter (fun c => access_tag c ∈ tags) index.
Proof.
  induction index as [| c index IH]; [reflexivity |].
  destruct (decide (access_tag c ∈ tags)) as [Hin | Hout].
  - rewrite (filter_cons_True _ c index Hin), (filter_cons_True _ c _ Hin), IH.
    reflexivity.
  - rewrite (filter_cons_False _ c index Hout). exact IH.
Qed.

Lemma search_on_allowed_part query_vector k (tags : gset string) (index : list Chunk) :
  search similarity score_ltb query_vector k tags
    (filter (fun c => access_tag c ∈ tags) index)
  = search similarity score_ltb query_vector k tags index.
Proof. unfold search. rewrite filter_allowed_idem. reflexivity. Qed.

(** C2: for a role with a mapping and over every index, [retrieve]
    either fails because the query could not be embedded, or returns
    results that hold only chunks whose access tag is among the role's
    allowed tags; and the chunks that are not allowed take no part in
    the search: any index with the same allowed chunks gives the same
    results. *)
Theorem retrieve_respects_access (config : gmap string (gset string))
    (index : list Chunk) (query_text role : string) (k : nat)
    (tags : gset string) :
  config !! role = Some tags ->
  match retrieve similarity score_ltb embed config index query_text role k with
  | inr results =>
    Forall (fun r => access_tag (chunk_reference r) ∈ tags) results /\
    forall index' : list Chunk,
      filter (fun c => access_tag c ∈ tags) index'
      = filter (fun c => access_tag c ∈ tags) index ->
      retrieve similarity score_ltb embed config index' query_text role k = inr results
  | inl e => e = EmbeddingError /\ embed query_text = None
  end.
Proof.
  intros Hrole. unfold retrieve, allowed_tags. rewrite Hrole.
  destruct (embed query_text) as [query_vector |]; [| split; reflexivity].
  split.
  - apply search_allowed_only.
  - intros index' Hsame. unfold search. rewrite Hsame. reflexivity.
Qed.

End Retrieval.
End CoreProperties.

(** * The properties on concrete runs *)

(** The boundary and both refusals, on the loaded page. *)
Lemma handleFileSelect_accepts_iff_witness :
  accepted V1 report_pdf fresh_state (handleFileSelect V1 (Some report_pdf) fresh_state) /\
  refused V1 fresh_state
    (handleFileSelect V1
       (Some {| file_name := "big.pdf"; file_type := "application/pdf";
                file_size := 20 * 1024 * 1024 + 1 |}) fresh_state).
Proof.
  split.
  - apply (handleFileSelect_accepts_iff V1 report_pdf fresh_state); reflexivity.
  - apply (handleFileSelect_accepts_iff V1 _ fresh_state).
    intros [_ Hs]. vm_compute in Hs. apply Hs. reflexivity.
Defined.

(** A search for [leave policy], typed with spaces around it. *)
Lemma handleSearch_issues_query_witness :
  requests (fx (handleSearch (RT := int_runtime) V2 (NetworkFailure "Failed to fetch")
                  (with_query "  leave policy " fresh_state)))
  = [ {| req_url := "https://mini-rag-mm0h.onrender.com/api/query";
         req_method := "POST";
         req_headers := [("Content-Type", "application/json")];
         req_body :=
           Some (BodyText (html "{'query':'leave policy','role':'Employee'}")) |} ].
Proof.
  apply (handleSearch_issues_query (RT := int_runtime) V2
           (NetworkFailure "Failed to fetch")
           (with_query "  leave policy " fresh_state) "leave policy").
  - reflexivity.
  - discriminate.
Defined.

(** An upload of the selected report. *)
Lemma handleUpload_issues_upload_witness :
  requests (fx (handleUpload (RT := int_runtime) V1 (NetworkFailure "Failed to fetch")
                  (handleFileSelect V1 (Some report_pdf) fresh_state)))
  = [ {| req_url := "https://your-backend.up.railway.app/api/upload";
         req_method := "POST";
         req_headers := [];
         req_body := Some (BodyForm
           [("file", FormFile report_pdf); ("role", FormString "Employee");
            ("doc_type", FormString "Employee")]) |} ].
Proof.
  apply (handleUpload_issues_upload (RT := int_runtime) V1
           (NetworkFailure "Failed to fetch")
           (handleFileSelect V1 (Some report_pdf) fresh_state) report_pdf).
  reflexivity.
Defined.

(** No file selected; a query of three spaces. *)
Lemma nothing_to_send_only_toast_witness :
  only_error_toast V1 "Please select a PDF file first" fresh_state
    (handleUpload (RT := int_runtime) V1 (NetworkFailure "Failed to fetch") fresh_state) /\
  only_error_toast V1 "Please enter a question" (with_query "   " fresh_state)
    (handleSearch (RT := int_runtime) V1 (NetworkFailure "Failed to fetch")
       (with_query "   " fresh_state)).
Proof.
  split.
  - apply (nothing_to_send_only_toast (RT := int_runtime) V1
             (NetworkFailure "Failed to fetch") fresh_state). reflexivity.
  - apply (nothing_to_send_only_toast (RT := int_runtime) V1
             (NetworkFailure "Failed to fetch") (with_query "   " fresh_state)).
    reflexivity.
Defined.

(** A click on the HR chip of the search panel. *)
Lemma chip_click_sets_one_role_witness :
  searchRole (globals (chip_click 3 fresh_state)) = Some "HR" /\
  uploadRole (globals (chip_click 3 fresh_state)) = Some "Employee".
Proof.
  apply (chip_click_sets_one_role 3
           {| chip_role := Some "HR"; chip_target := Some "search";
              chip_parent := 1; chip_ancestors := []; chip_active := false |}
           fresh_state);
    reflexivity.
Defined.

(** The claim as first stated fails: a 204 is reported healthy. *)
Lemma health_204_reported_healthy :
  reports_healthy V1 fresh_state (checkBackendHealth V1 no_content fresh_state) /\
  (204 <> 200)%N.
Proof. split; [reflexivity | discriminate]. Qed.

(** A 204 and a network failure. *)
Lemma checkBackendHealth_healthy_iff_ok_witness :
  reports_healthy V2 fresh_state (checkBackendHealth V2 no_content fresh_state) /\
  reports_unreachable V2 "Failed to fetch" fresh_state
    (checkBackendHealth (RT := int_runtime) V2 (NetworkFailure "Failed to fetch") fresh_state).
Proof.
  split.
  - apply (checkBackendHealth_healthy_iff_ok V2 no_content fresh_state).
    eexists. split; [reflexivity | cbn; lia].
  - apply (checkBackendHealth_healthy_iff_ok (RT := int_runtime) V2
             (NetworkFailure "Failed to fetch") fresh_state).
    reflexivity.
Defined.

(** The claim as first stated fails in revision 2: the response's
    [text_length] is nowhere in the upload result. *)
Lemma upload_result_v2_hides_text_length :
  to_string (field upload_answer "text_length") = Ok "12345" /\
  ~ Shows "12345"
      (uploadResult_innerHTML
         (upload (handleUpload V2 (respond 200 upload_answer) (file_chosen V2)))).
Proof.
  split; [reflexivity |].
  intros H. apply contains_spec in H. vm_compute in H. discriminate H.
Qed.

(** Revision 1 shows the [text_length] of the same response. *)
Lemma upload_result_shows_fields_witness :
  Shows "12345"
    (uploadResult_innerHTML
       (upload (handleUpload V1 (respond 200 upload_answer) (file_chosen V1)))).
Proof.
  apply (upload_result_shows_fields V1 {| status := 200; body := BodyJson upload_answer |}
           upload_answer report_pdf (file_chosen V1));
    reflexivity.
Defined.

(** The claim as first stated fails: [detail] is not a string here, and
    the toast is neither it nor the generic message. *)
Lemma validation_error_toast :
  ok {| status := 422; body := BodyJson validation_error |} = false /\
  (forall d, field validation_error "detail" <> VStr d) /\
  toasts (fx (handleSearch V2 (respond 422 validation_error) (asking "leave policy")))
  = [new_toast V2 "[object Object]" "error"] /\
  "[object Object]" <> "Search failed".
Proof.
  split; [reflexivity |]. split; [intros d; discriminate |].
  split; [reflexivity | discriminate].
Qed.

(** A 400 with a [detail] string, and a 500 without [detail]. *)
Lemma non_2xx_shows_detail_witness :
  upload_failed V1 (BodyJson pdf_only) (file_chosen V1)
    (handleUpload V1 (respond 400 pdf_only) (file_chosen V1)) /\
  search_failed V1 (BodyJson no_detail) (asking "leave policy")
    (handleSearch V1 (respond 500 no_detail) (asking "leave policy")).
Proof.
  split.
  - refine (proj1 (non_2xx_shows_detail V1
                     {| status := 400; body := BodyJson pdf_only |}
                     (file_chosen V1) eq_refl) report_pdf _).
    reflexivity.
  - refine (proj2 (non_2xx_shows_detail V1
                     {| status := 500; body := BodyJson no_detail |}
                     (asking "leave policy") eq_refl) _).
    discriminate.
Defined.

(** The claim as first stated fails: the run ends with the answer
    container visible, the sources list not written, and an error toast:
    neither (a) nor (b). *)
Lemma answer_visible_with_error_toast :
  let s := asking "leave policy" in
  let o := respond 200 sources_as_text in
  let s' := handleSearch V1 o s in
  visible (answerContainer_display (search s')) /\
  sourcesList_innerHTML (search s') = sourcesList_innerHTML (search s) /\
  toasts (fx s') = [new_toast V1 "data.sources.map is not a function" "error"] /\
  ~ (search_succeeded V1 o s s' \/ search_errored V1 s s').
Proof.
  split; [reflexivity | split; [reflexivity | split; [reflexivity |]]].
  intros [(r & data & _ & _ & _ & _ & _ & _ & Htoasts) | [Hhidden _]].
  - discriminate Htoasts.
  - discriminate Hhidden.
Qed.

(** A well-formed answer ends in (a).  A request that fails after
    another search has displayed its answer ends in the error toast
    with the answer container as that search left it: visible. *)
Lemma handleSearch_loading_then_outcome_witness :
  let s := asking "leave policy" in
  let s1 := fst (handleSearch_begin (RT := int_runtime) V1 s) in
  let o := respond 200 query_answer in
  let s_mid := handleSearch V1 o s1 in
  let failure := NetworkFailure (RT := int_runtime) "Failed to fetch" in
  (hidden (loadingState_display (search (handleSearch V1 o s))) /\
   search_succeeded V1 o s1 (handleSearch V1 o s) /\
   toasts (fx (handleSearch V1 o s)) = []) /\
  (hidden (loadingState_display (search (handleSearch_resume V1 failure s_mid))) /\
   search_error_shown V1 s_mid (handleSearch_resume V1 failure s_mid) /\
   visible (answerContainer_display (search (handleSearch_resume V1 failure s_mid)))).
Proof.
  assert (Hq : trim (queryInput_value (search (asking "leave policy"))) <> "")
    by discriminate.
  assert (Hcan : answer_can_render (respond 200 query_answer)).
  { intros r data Hr _ Hb. injection Hr as <-. injection Hb as <-. reflexivity. }
  assert (Hfail : answer_can_render (NetworkFailure (RT := int_runtime) "Failed to fetch")).
  { intros r data Hr. discriminate Hr. }
  intros s s1 o s_mid failure. split.
  - destruct (handleSearch_loading_then_outcome V1 o s s1 Hq)
      as (_ & _ & _ & _ & Hloading & Houtcome).
    destruct (Houtcome Hcan) as ([Hs | [_ [m Hm]]] & _).
    + split; [exact Hloading |]. split; [exact Hs | reflexivity].
    + discriminate Hm.
  - destruct (handleSearch_loading_then_outcome V1 failure s s_mid Hq)
      as (_ & _ & _ & _ & Hloading & Houtcome).
    destruct (Houtcome Hfail) as ([(r & data & Hr & _) | He] & _).
    + discriminate Hr.
    + split; [exact Hloading |]. split; [exact He | reflexivity].
Defined.

(** What the continuation does with a body whose [answer] has no
    primitive value: the answer container is shown, the assignment to
    [textContent] raises, and the catch block shows the toast. *)
Lemma answer_without_primitive_value :
  let s1 := fst (handleSearch_begin (RT := int_runtime) V1 (asking "leave policy")) in
  let s' := handleSearch_resume V1 (respond 200 answer_with_toString) s1 in
  renderable answer_with_toString = false /\
  visible (answerContainer_display (search s')) /\
  answerText_textContent (search s') = "" /\
  toasts (fx s') = [new_toast V1 "Cannot convert object to primitive value" "error"].
Proof. repeat split. Qed.

(** ** The retrieval core on a small index *)

(** An employee's query over an index that also holds HR and Admin
    chunks. *)
Lemma retrieve_respects_access_witness :
  Core.retrieve dot Z.ltb demo_embed demo_config demo_index "leave policy" "Employee" 5
  = inr demo_results /\
  Forall (fun r => Core.access_tag (Core.chunk_reference r) ∈ ({[ "Employee" ]} : gset string))
    demo_results.
Proof.
  assert (Hrun : Core.retrieve dot Z.ltb demo_embed demo_config demo_index
                   "leave policy" "Employee" 5 = inr demo_results)
    by (vm_compute; reflexivity).
  split; [exact Hrun |].
  assert (Hrole : demo_config !! "Employee" = Some ({[ "Employee" ]} : gset string))
    by (vm_compute; reflexivity).
  pose proof (CoreProperties.retrieve_respects_access dot Z.ltb demo_embed demo_config
                demo_index "leave policy" "Employee" 5 {[ "Employee" ]} Hrole) as H.
  rewrite Hrun in H. exact (proj1 H).
Defined.

(** ** More of the script on concrete runs *)

(** The button after an upload that could not reach the backend. *)
Lemma handleUpload_button_released_witness :
  uploadBtn_disabled
    (upload (handleUpload (RT := int_runtime) V1 (NetworkFailure "Failed to fetch")
               (file_chosen V1))) = false.
Proof.
  pose proof (handleUpload_button_released (RT := int_runtime) V1
                (NetworkFailure "Failed to fetch") (file_chosen V1) report_pdf eq_refl)
    as H.
  exact (proj1 (proj2 H)).
Defined.

(** A successful upload arms the reset; one whose [filename] has no
    primitive value arms toast timers only. *)
Lemma handleUpload_arms_reset_iff_witness :
  (exists armed,
     timers (fx (handleUpload V1 (respond 200 upload_answer) (file_chosen V1)))
     = timers (fx (file_chosen V1)) ++ armed /\
     reset_timer ∈ armed) /\
  (exists armed,
     timers (fx (handleUpload V1 (respond 200 filename_with_toString) (file_chosen V1)))
     = timers (fx (file_chosen V1)) ++ armed /\
     Forall toast_timer armed /\ reset_timer ∉ armed).
Proof.
  split.
  - destruct (handleUpload_arms_reset_iff V1 (respond 200 upload_answer) (file_chosen V1)
                report_pdf eq_refl) as (armed & Ht & Hiff & _).
    exists armed. split; [exact Ht |]. apply Hiff. reflexivity.
  - destruct (handleUpload_arms_reset_iff V1 (respond 200 filename_with_toString)
                (file_chosen V1) report_pdf eq_refl) as (armed & Ht & Hiff & Honly).
    exists armed. split; [exact Ht |]. split; [apply Honly; reflexivity |].
    intros Hin. apply Hiff in Hin. discriminate Hin.
Defined.

(** The upload whose [filename] has no primitive value, in full: the
    success toast, then the error toast, and nothing rendered. *)
Lemma upload_without_primitive_value :
  let s' := handleUpload V1 (respond 200 filename_with_toString) (file_chosen V1) in
  uploadResult_innerHTML (upload s') = "" /\
  toasts (fx s')
  = toasts (fx (file_chosen V1))
    ++ [new_toast V1 "Document uploaded successfully!" "success";
        new_toast V1 "Cannot convert object to primitive value" "error"] /\
  timers (fx s')
  = [{| delay := 3000; action := FadeToast 0 |};
     {| delay := 3000; action := FadeToast 1 |};
     {| delay := 3000; action := FadeToast 2 |}].
Proof. repeat split. Qed.

(** Two clicks on the upload button, the first answered with a 500. *)
Lemma handleUpload_twice_sends_twice_witness :
  requests (fx (handleUpload V1 (respond 200 upload_answer)
                  (handleUpload V1 (respond 500 no_detail) (file_chosen V1))))
  = [upload_request (RT := int_runtime) V1 report_pdf (file_chosen V1);
     upload_request (RT := int_runtime) V1 report_pdf (file_chosen V1)].
Proof.
  exact (handleUpload_twice_sends_twice V1 (respond 500 no_detail)
           (respond 200 upload_answer) (file_chosen V1) report_pdf eq_refl).
Defined.

(** A file chosen within the two seconds after a successful upload is
    gone once the reset fires. *)
Lemma reset_clears_later_selection_witness :
  selectedFile
    (globals
       (fire_timer 2
          (handleFileSelect V1 (Some report_pdf)
             (handleUpload V1 (respond 200 upload_answer) (file_chosen V1)))))
  = None.
Proof.
  pose proof (reset_clears_later_selection V1 (respond 200 upload_answer)
                (respond 200 upload_answer) (file_chosen V1) report_pdf
                (Some report_pdf) eq_refl eq_refl) as H.
  exact (proj1 (proj2 H)).
Defined.

(** A click on the first chip of a page with a nested group: the chip
    nested below the same element is switched off, the chip of the
    other group stays on. *)
Lemma chip_click_one_active_witness :
  let s' := chip_click 0 nested_page in
  chip_active <$> chips nested_page = [false; true; true] /\
  (exists c, chips s' !! 0 = Some c /\ chip_active c = true) /\
  (exists c, chips s' !! 1 = Some c /\ chip_active c = false) /\
  (exists c, chips s' !! 2 = Some c /\ chip_active c = true).
Proof.
  intros s'. split; [reflexivity |].
  destruct (chip_click_one_active 0 outer_chip nested_page eq_refl) as [_ H].
  split; [| split].
  - destruct (H 0 outer_chip eq_refl) as (c & Hc & _ & _ & _ & _ & Hbelow & _).
    exists c. split; [exact Hc |]. apply (Hbelow eq_refl). reflexivity.
  - destruct (H 1 nested_chip eq_refl) as (c & Hc & _ & _ & _ & _ & Hbelow & _).
    exists c. split; [exact Hc |].
    destruct (chip_active c); [| reflexivity].
    discriminate (proj1 (Hbelow eq_refl) eq_refl).
  - destruct (H 2 other_chip eq_refl) as (c & Hc & _ & _ & _ & _ & _ & Helse).
    exists c. split; [exact Hc |]. exact (Helse eq_refl).
Defined.

(** A click on the HR search chip, then a search. *)
Lemma clicked_role_is_sent_witness :
  requests (fx (handleSearch V2 (respond 200 query_answer)
                  (chip_click 3 (asking "leave policy"))))
  = [ {| req_url := "https://mini-rag-mm0h.onrender.com/api/query";
         req_method := "POST";
         req_headers := [("Content-Type", "application/json")];
         req_body := Some (BodyText (html "{'query':'leave policy','role':'HR'}")) |} ].
Proof.
  exact (proj1 (clicked_role_is_sent V2 (respond 200 query_answer) 3 hr_search_chip
                  (asking "leave policy") eq_refl)
           "leave policy" eq_refl eq_refl ltac:(discriminate)).
Defined.

(** The report is accepted, then a file that is too big is refused. *)
Lemma last_acceptable_file_is_pending_witness :
  selectedFile
    (globals (handleFileSelect V1 (Some too_big)
                (handleFileSelect V1 (Some report_pdf) fresh_state)))
  = Some report_pdf.
Proof.
  assert (Ha : acceptable report_pdf) by (split; [reflexivity | discriminate]).
  assert (Hn : ~ acceptable too_big).
  { intros [_ Hs]. vm_compute in Hs. apply Hs. reflexivity. }
  exact (proj1 (proj1 (last_acceptable_file_is_pending (RT := int_runtime) V1
                         (NetworkFailure "Failed to fetch") report_pdf too_big
                         fresh_state Ha) Hn)).
Defined.

(** The size shown for a file of exactly 20 MiB. *)
Lemma shown_size_is_rounded_witness :
  uploadSubtext (upload (handleFileSelect V1 (Some report_pdf) fresh_state)) = "20.00 MB".
Proof.
  assert (Ha : acceptable report_pdf) by (split; [reflexivity | discriminate]).
  exact (proj1 (shown_size_is_rounded V1 report_pdf fresh_state Ha)).
Defined.

(** An answer without sources. *)
Lemma answer_without_sources_witness :
  let s' := handleSearch V2 (respond 200 bare_answer) (asking "leave policy") in
  sourcesList_innerHTML (search s')
  = html "<div style='color: var(--text-tertiary); font-size: 0.875rem;'>No sources</div>" /\
  answerText_textContent (search s') = "Twenty days a year." /\
  toasts (fx s') = [].
Proof.
  pose proof (answer_without_sources V2 {| status := 200; body := BodyJson bare_answer |}
                bare_answer (fst (handleSearch_begin (RT := int_runtime) V2 (asking "leave policy")))
                eq_refl eq_refl eq_refl eq_refl (or_introl eq_refl)) as H.
  destruct H as (_ & _ & Hsources & Htoasts & Htext).
  split; [exact Hsources |]. split; [exact Htext | exact Htoasts].
Defined.

(** The first source of the well-formed answer. *)
Lemma every_source_is_listed_witness :
  source_shown handbook_source
    (sourcesList_innerHTML
       (search (handleSearch V1 (respond 200 query_answer) (asking "leave policy")))).
Proof.
  pose proof (every_source_is_listed V1 {| status := 200; body := BodyJson query_answer |}
                query_answer _ (fst (handleSearch_begin (RT := int_runtime) V1 (asking "leave policy")))
                eq_refl eq_refl eq_refl eq_refl eq_refl ltac:(discriminate) eq_refl) as H.
  apply (proj2 (proj2 H)). apply elem_of_cons. left. reflexivity.
Defined.

(** What the callback of [map] does with a source whose [similarity]
    has no primitive value. *)
Lemma source_without_primitive_value :
  source_renders similarity_with_toString = false /\
  render_source similarity_with_toString
  = Throw {| message := "Cannot convert object to primitive value" |}.
Proof. split; reflexivity. Qed.

(** A network failure with no message, in both handlers. *)
Lemma network_failure_toast_witness :
  let s1 := fst (handleSearch_begin (RT := int_runtime) V1 (asking "leave policy")) in
  let s_mid := handleSearch V1 (respond 200 query_answer) s1 in
  toasts (fx (handleUpload (RT := int_runtime) V1 (NetworkFailure "") (file_chosen V1)))
  = toasts (fx (file_chosen V1))
    ++ [new_toast V1 "Upload failed. Please try again." "error"] /\
  toasts (fx (handleSearch (RT := int_runtime) V1 (NetworkFailure "")
                (asking "leave policy")))
  = [new_toast V1 "Search failed. Please try again." "error"] /\
  answerContainer_display
    (search (handleSearch_resume (RT := int_runtime) V1 (NetworkFailure "") s_mid))
  = "block".
Proof.
  intros s1 s_mid.
  pose proof (network_failure_toast (RT := int_runtime) V1 "" (file_chosen V1) s1) as Hu.
  pose proof (network_failure_toast (RT := int_runtime) V1 "" (file_chosen V1) s_mid) as Hs.
  split; [| split].
  - exact (proj1 (proj1 Hu report_pdf eq_refl)).
  - exact (proj1 (proj2 Hu)).
  - exact (proj1 (proj2 (proj2 (proj2 (proj2 Hs))))).
Defined.

(** A 200 whose body is the JSON [null]. *)
Lemma upload_ok_without_body_witness :
  toasts (fx (handleUpload V1 (respond 200 VNull) (file_chosen V1)))
  = toasts (fx (file_chosen V1))
    ++ [new_toast V1 "Document uploaded successfully!" "success";
        new_toast V1 "Cannot read properties of null (reading 'filename')" "error"].
Proof.
  pose proof (upload_ok_without_body (RT := int_runtime) V1
                {| status := 200; body := BodyJson VNull |}
                report_pdf (file_chosen V1) eq_refl eq_refl) as H.
  exact (proj1 (proj2 H) eq_refl).
Defined.
